(** * The runtime type model of the query executor ([src/datatypes.ts])

    A shallow embedding of the type variants, the null-aware comparison
    dispatcher, the conversion dispatcher and the memoising type registry,
    together with the properties of the design document that concern them.

    JavaScript numbers are IEEE 754 binary64 values ([spec_float] at precision
    53); strings are sequences of code units below 256; an object is an
    allocation identity ([oid]) with its read-only fields, and [===] on
    objects compares identities. *)

From Stdlib Require Import ZArith String Ascii List Bool Lia SpecFloat.
From stdpp Require Import base option countable gmap strings list.
From Equations Require Import Equations.

Local Open Scope Z_scope.

(** ** JavaScript numbers and the built-ins the module calls *)

Module Number.

Definition prec : Z := 53.
Definition emax : Z := 1024.

Definition number : Type := spec_float.

Definition NaN : number := S754_nan.

(** The number nearest to an integer (exact below 2^53). *)
Definition ofZ (z : Z) : number := binary_normalize prec emax z 0 false.

Definition ofNat (n : nat) : number := ofZ (Z.of_nat n).

(** The number nearest to [m * 10^e], ties to even: the value of a decimal
    literal. *)
Definition ofDecimal (neg : bool) (m : positive) (e : Z) : number :=
  match e with
  | Zneg p =>
      let '(q, e', l) := SFdiv_core_binary prec emax (Zpos m) 0 (10 ^ Zpos p) 0 in
      binary_round_aux prec emax neg q e' l
  | _ => binary_round prec emax neg (Z.to_pos (Zpos m * 10 ^ e)) 0
  end.

(** [a < b], [a > b] and [a === b] on numbers; all false on NaN. *)
Definition num_lt (a b : number) : bool := SFltb a b.
Definition num_gt (a b : number) : bool := SFltb b a.
Definition num_eq (a b : number) : bool := SFeqb a b.

(** [Number.isFinite] *)
Definition isFinite (x : number) : bool :=
  match x with
  | S754_zero _ | S754_finite _ _ _ => true
  | S754_infinity _ | S754_nan => false
  end.

(** The integer that [Math.floor] selects for [n / 2^k]. *)
Definition floor_scaled (n : Z) (k : positive) : Z := n / 2 ^ Zpos k.

(** The integer that [Math.round] selects for [n / 2^k]: the nearest one,
    a tie going up. *)
Definition round_scaled (n : Z) (k : positive) : Z :=
  (2 * n + 2 ^ Zpos k) / (2 * 2 ^ Zpos k).

Definition integral (s : bool) (r : Z) : number :=
  if r =? 0 then S754_zero s else ofZ r.

(** [Math.floor] *)
Definition Math_floor (x : number) : number :=
  match x with
  | S754_finite s m (Zneg k) => integral s (floor_scaled (cond_Zopp s (Zpos m)) k)
  | _ => x
  end.

(** [Math.round] *)
Definition Math_round (x : number) : number :=
  match x with
  | S754_finite s m (Zneg k) => integral s (round_scaled (cond_Zopp s (Zpos m)) k)
  | _ => x
  end.

(** *** [Number.parseFloat]: the longest prefix that is a decimal literal *)

Definition code (c : ascii) : Z := Z.of_N (N_of_ascii c).

Definition isWhiteSpace (c : ascii) : bool :=
  let n := code c in
  ((9 <=? n) && (n <=? 13)) || (n =? 32) || (n =? 160).

Definition digit (c : ascii) : option Z :=
  let n := code c in
  if (48 <=? n) && (n <=? 57) then Some (n - 48) else None.

Fixpoint trimStart (s : string) : string :=
  match s with
  | String c r => if isWhiteSpace c then trimStart r else s
  | EmptyString => s
  end.

(** Reads decimal digits: the value of [acc] followed by the digits read,
    how many were read, and what is left. *)
Fixpoint digits (s : string) (acc : Z) (count : Z) : Z * Z * string :=
  match s with
  | String c r =>
      match digit c with
      | Some d => digits r (10 * acc + d) (count + 1)
      | None => (acc, count, s)
      end
  | EmptyString => (acc, count, s)
  end.

Definition sign (s : string) : bool * string :=
  match s with
  | String "-"%char r => (true, r)
  | String "+"%char r => (false, r)
  | _ => (false, s)
  end.

(** The exponent part [e|E [+|-] digits], 0 when there is none. *)
Definition exponent (s : string) : Z :=
  match s with
  | String c r =>
      if (Ascii.eqb c "e" || Ascii.eqb c "E")%bool then
        let '(neg, r') := sign r in
        let '(v, n, _) := digits r' 0 0 in
        if n =? 0 then 0 else cond_Zopp neg v
      else 0
  | EmptyString => 0
  end.

Definition parseFloat (input : string) : number :=
  let '(neg, s) := sign (trimStart input) in
  if String.prefix "Infinity" s then S754_infinity neg
  else
    let '(ip, ni, s1) := digits s 0 0 in
    let '(fp, nf, s2) :=
      match s1 with
      | String "."%char r => digits r ip 0
      | _ => (ip, 0, s1)
      end in
    if ni + nf =? 0 then NaN
    else
      match fp with
      | Zpos m => ofDecimal neg m (exponent s2 - nf)
      | _ => S754_zero neg
      end.

(** The integer a number denotes, when it denotes one. *)
Definition toZ (x : number) : option Z :=
  match x with
  | S754_zero _ => Some 0
  | S754_finite s m (Zneg k) =>
      if Zpos m mod 2 ^ Zpos k =? 0 then Some (cond_Zopp s (Zpos m / 2 ^ Zpos k)) else None
  | S754_finite s m e => Some (cond_Zopp s (Zpos m * 2 ^ e))
  | S754_infinity _ | S754_nan => None
  end.

(** The numbers of the format: a mantissa of at most 53 bits, in canonical
    position. *)
Definition binary64 (x : number) : bool := valid_binary prec emax x.

(** The literal [0.1] of the source. *)
Definition lit_0_1 : number := S754_finite false 7205759403792794 (-56).

#[global] Instance number_eq_dec : EqDecision number.
Proof. solve_decision. Defined.

#[global] Instance number_countable : Countable number.
Proof.
  refine (inj_countable'
    (fun x : number =>
       match x with
       | S754_zero s => inl (inl s)
       | S754_infinity s => inl (inr s)
       | S754_nan => inr (inl tt)
       | S754_finite s m e => inr (inr (s, m, e))
       end)
    (fun y =>
       match y with
       | inl (inl s) => S754_zero s
       | inl (inr s) => S754_infinity s
       | inr (inl _) => S754_nan
       | inr (inr (s, m, e)) => S754_finite s m e
       end) _).
  intros []; reflexivity.
Defined.

End Number.

Export Number.

(** ** Raw values, errors *)

(** The raw values the type variants handle.  A moment is the instant it
    denotes, in milliseconds since the epoch, or nothing when it is invalid. *)
#[warnings="-register-all"]
Inductive JsVal : Type :=
| JNull
| JUndefined
| JBool (b : bool)
| JNum (x : number)
| JStr (s : string)
| JMoment (t : option Z)
| JArr (l : list JsVal).

(** [DataType] of [interfaces.ts]. *)
Module DataType.
Inductive t : Type :=
| null | bool | int | long | float | decimal | text | timestamp | array.
End DataType.

#[global] Instance DataType_eq_dec : EqDecision DataType.t.
Proof. solve_decision. Defined.

(** What the module throws: the two [QueryError] messages of [TextType],
    [CastError], the [Error] of [makeType], and the engine's own [TypeError]
    for a property read on [null] or [undefined]. *)
Inductive JsError : Type :=
| QueryError_valueTooLong (len : number)
| QueryError_invalidInputSyntax (to : DataType.t) (str : string)
| CastError (from to : DataType.t)
| Error_unsupportedRawType (to : DataType.t)
| TypeError.

(** The outcome of a call: a value, an exception, or [Unmodelled] for
    operands outside the modelled fragment (a realized value that is not of
    the raw type of the evaluator, a target that is not of the class the
    method casts it to). *)
Inductive result (A : Type) : Type :=
| Ok (a : A)
| Throw (e : JsError)
| Unmodelled.
Arguments Ok {A} a.
Arguments Throw {A} e.
Arguments Unmodelled {A}.

#[global] Instance result_ret : MRet result := fun A a => Ok a.
#[global] Instance result_bind : MBind result :=
  fun A B f m =>
    match m with
    | Ok a => f a
    | Throw e => Throw e
    | Unmodelled => Unmodelled
    end.
#[global] Instance result_fmap : FMap result :=
  fun A B f m =>
    match m with
    | Ok a => Ok (f a)
    | Throw e => Throw e
    | Unmodelled => Unmodelled
    end.

Definition is_null (v : JsVal) : bool :=
  match v with JNull => true | _ => false end.

(** *** The operators [===], [<] and [>]

    [None] stands for operands outside the modelled fragment: the identity of
    two objects, and the conversion of a string or an array to a number. *)

Definition js_strict_eq (a b : JsVal) : option bool :=
  match a, b with
  | JNull, JNull | JUndefined, JUndefined => Some true
  | JBool x, JBool y => Some (Bool.eqb x y)
  | JNum x, JNum y => Some (num_eq x y)
  | JStr x, JStr y => Some (String.eqb x y)
  | (JMoment _ | JArr _), (JMoment _ | JArr _) => None
  | _, _ => Some false
  end.

Definition toNumeric (v : JsVal) : option number :=
  match v with
  | JNull => Some (S754_zero false)
  | JUndefined => Some NaN
  | JBool b => Some (if b then ofZ 1 else S754_zero false)
  | JNum x => Some x
  | JMoment (Some t) => Some (ofZ t)
  | JMoment None => Some NaN
  | JStr _ | JArr _ => None
  end.

Definition js_lt (a b : JsVal) : option bool :=
  match a, b with
  | JStr x, JStr y => Some (String.ltb x y)
  | _, _ => x ← toNumeric a; y ← toNumeric b; Some (num_lt x y)
  end.

Definition js_gt (a b : JsVal) : option bool := js_lt b a.

(** ** Type descriptors *)

Definition oid : Type := positive.

(** The classes extending [TypeBase]; [oid] is the identity of the instance. *)
Inductive IType : Type :=
| BoolType (o : oid)
| TimestampType (o : oid)
| NullType (o : oid)
| NumberType (o : oid) (primary : DataType.t)
| TextType (o : oid) (len : option number)
| ArrayType (o : oid) (of_ : IType).

Definition oid_of (t : IType) : oid :=
  match t with
  | BoolType o | TimestampType o | NullType o
  | NumberType o _ | TextType o _ | ArrayType o _ => o
  end.

(** [a === b] on descriptors. *)
Definition same_instance (a b : IType) : bool := Pos.eqb (oid_of a) (oid_of b).

Definition primary (t : IType) : DataType.t :=
  match t with
  | BoolType _ => DataType.bool
  | TimestampType _ => DataType.timestamp
  | NullType _ => DataType.null
  | NumberType _ p => p
  | TextType _ _ => DataType.text
  | ArrayType _ _ => DataType.array
  end.

Definition integers : list DataType.t := [DataType.int; DataType.long].
Definition numbers : list DataType.t :=
  [DataType.int; DataType.long; DataType.decimal; DataType.float].

(** [set.has(k)] *)
Definition has (set : list DataType.t) (k : DataType.t) : bool := bool_decide (k ∈ set).

(** ** The registry: [Types], [makeText], [makeArray], [makeType] *)

(** The two memo tables and the allocator of identities. *)
Record Registry : Type := {
  texts : gmap (option number) IType;
  arrays : gmap oid IType;
  next_oid : oid
}.

(** An optional length argument as the caller passes it. *)
Variant MaxLength : Type :=
| LenUndefined
| LenNull
| LenNumber (n : number).

(** The default [= null] of the parameter, then [len ?? null]. *)
Definition defaultNull (len : MaxLength) : MaxLength :=
  match len with LenUndefined => LenNull | _ => len end.

Definition nullish (len : MaxLength) : option number :=
  match len with LenNumber n => Some n | LenNull | LenUndefined => None end.

(** Keys of a [Map] are compared with SameValueZero: [-0] is stored as [+0]. *)
Definition mapKey (k : option number) : option number :=
  match k with
  | Some (S754_zero _) => Some (S754_zero false)
  | _ => k
  end.

Definition makeText (len : MaxLength) (r : Registry) : IType * Registry :=
  let len := nullish (defaultNull len) in
  match texts r !! mapKey len with
  | Some got => (got, r)
  | None =>
      let got := TextType (next_oid r) len in
      (got, {| texts := <[mapKey len := got]> (texts r);
               arrays := arrays r;
               next_oid := Pos.succ (next_oid r) |})
  end.

Definition makeArray (of_ : IType) (r : Registry) : IType * Registry :=
  match arrays r !! oid_of of_ with
  | Some got => (got, r)
  | None =>
      let got := ArrayType (next_oid r) of_ in
      (got, {| texts := texts r;
               arrays := <[oid_of of_ := got]> (arrays r);
               next_oid := Pos.succ (next_oid r) |})
  end.

(** The instances the [Types] literal creates, in the order it creates them. *)
Definition Types_bool : IType := BoolType 1%positive.
Definition Types_timestamp : IType := TimestampType 2%positive.
Definition Types_null : IType := NullType 3%positive.
Definition Types_float : IType := NumberType 4%positive DataType.float.
Definition Types_int : IType := NumberType 5%positive DataType.int.
Definition Types_long : IType := NumberType 6%positive DataType.long.

(** The state of the module once it is loaded. *)
Definition initial : Registry := {| texts := ∅; arrays := ∅; next_oid := 7%positive |}.

(** A property of [Types] is a descriptor or, under [text], a function. *)
Inductive TypesEntry : Type :=
| Descriptor (t : IType)
| Factory (f : MaxLength -> Registry -> IType * Registry).

Definition Types (k : DataType.t) : option TypesEntry :=
  match k with
  | DataType.bool => Some (Descriptor Types_bool)
  | DataType.text => Some (Factory (fun len => makeText (defaultNull len)))
  | DataType.timestamp => Some (Descriptor Types_timestamp)
  | DataType.null => Some (Descriptor Types_null)
  | DataType.float => Some (Descriptor Types_float)
  | DataType.int => Some (Descriptor Types_int)
  | DataType.long => Some (Descriptor Types_long)
  | DataType.decimal | DataType.array => None
  end.

Definition makeType (to : DataType.t + IType) : result TypesEntry :=
  match to with
  | inl name =>
      match Types name with
      | None => Throw (Error_unsupportedRawType name)
      | Some entry => Ok entry
      end
  | inr t => Ok (Descriptor t)
  end.

(** ** Comparisons *)

(** [a[i]] *)
Definition at_index (a : list JsVal) (i : nat) : JsVal := default JUndefined (a !! i).

(** [for (k = i; k < i + n; k++) if (!p(k)) return false;] then [true]. *)
Fixpoint every_index (p : nat -> option bool) (i n : nat) : option bool :=
  match n with
  | O => Some true
  | S n' => r ← p i; if r : bool then every_index p (S i) n' else Some false
  end.

(** [for (k = i; k < i + n; k++) if (p(k)) return true;] then [false]. *)
Fixpoint some_index (p : nat -> option bool) (i n : nat) : option bool :=
  match n with
  | O => Some false
  | S n' => r ← p i; if r : bool then Some true else some_index p (S i) n'
  end.

(** The null check of [TypeBase.equals], [gt] and [lt]. *)
Definition null_guard (f : JsVal -> JsVal -> option bool) (a b : JsVal) : option bool :=
  if is_null a || is_null b then Some false else f a b.

(** [moment(a).diff(moment(b))]: the difference in milliseconds. *)
Definition moment_diff (a b : JsVal) : option number :=
  match a, b with
  | JMoment (Some x), JMoment (Some y) => Some (ofZ (x - y))
  | JMoment _, JMoment _ => Some NaN
  | _, _ => None
  end.

Definition TimestampType_doEquals (a b : JsVal) : option bool :=
  d ← moment_diff a b; Some (num_lt d lit_0_1).

Definition TimestampType_doGt (a b : JsVal) : option bool :=
  d ← moment_diff a b; Some (num_gt d (S754_zero false)).

Definition TimestampType_doLt (a b : JsVal) : option bool :=
  d ← moment_diff a b; Some (num_lt d (S754_zero false)).

(** The three methods of [ArrayType], over the comparison of the element
    type [this.of]. *)
Definition ArrayType_doEquals (of_equals : JsVal -> JsVal -> option bool)
    (a b : list JsVal) : option bool :=
  if negb (length a =? length b)%nat then Some false
  else every_index (fun i => of_equals (at_index a i) (at_index b i)) 0 (length a).

Definition ArrayType_doGt (of_gt : JsVal -> JsVal -> option bool)
    (a b : list JsVal) : option bool :=
  let len := Nat.min (length a) (length b) in
  found ← some_index (fun i => of_gt (at_index a i) (at_index b i)) 0 len;
  if found : bool then Some true else Some (length b <? length a)%nat.

Definition ArrayType_doLt (of_lt : JsVal -> JsVal -> option bool)
    (a b : list JsVal) : option bool :=
  let len := Nat.min (length a) (length b) in
  found ← some_index (fun i => of_lt (at_index a i) (at_index b i)) 0 len;
  if found : bool then Some true else Some (length a <? length b)%nat.

(** An array operand, [None] for a value that is not one. *)
Definition on_arrays (f : list JsVal -> list JsVal -> option bool) (a b : JsVal)
    : option bool :=
  match a, b with
  | JArr la, JArr lb => f la lb
  | _, _ => None
  end.

(** [this.doEquals(a, b)] with the overrides of each class. *)
Fixpoint doEquals (this : IType) (a b : JsVal) : option bool :=
  match this with
  | TimestampType _ => TimestampType_doEquals a b
  | NullType _ => Some false
  | ArrayType _ of_ => on_arrays (ArrayType_doEquals (null_guard (doEquals of_))) a b
  | BoolType _ | NumberType _ _ | TextType _ _ => js_strict_eq a b
  end.

Fixpoint doGt (this : IType) (a b : JsVal) : option bool :=
  match this with
  | TimestampType _ => TimestampType_doGt a b
  | NullType _ => Some false
  | ArrayType _ of_ => on_arrays (ArrayType_doGt (null_guard (doGt of_))) a b
  | BoolType _ | NumberType _ _ | TextType _ _ => js_gt a b
  end.

Fixpoint doLt (this : IType) (a b : JsVal) : option bool :=
  match this with
  | TimestampType _ => TimestampType_doLt a b
  | NullType _ => Some false
  | ArrayType _ of_ => on_arrays (ArrayType_doLt (null_guard (doLt of_))) a b
  | BoolType _ | NumberType _ _ | TextType _ _ => js_lt a b
  end.

Module TypeBase.

Definition equals (this : IType) (a b : JsVal) : option bool :=
  if is_null a || is_null b then Some false else doEquals this a b.

Definition gt (this : IType) (a b : JsVal) : option bool :=
  if is_null a || is_null b then Some false else doGt this a b.

Definition lt (this : IType) (a b : JsVal) : option bool :=
  if is_null a || is_null b then Some false else doLt this a b.

End TypeBase.

(** ** Evaluators *)

(** [val]: a constant, or a function of the raw context. *)
Inductive Producer : Type :=
| Constant (v : JsVal)
| Deferred (f : JsVal -> result JsVal).

Definition Selection : Type := positive.

Module Evaluator.

(** Modelled from the spec: the class [Evaluator] of [valuetypes.ts], of
    which the sources at hand only show the constructor calls.  Its fields
    are those of section 3 (type tag, identifying key, display form, content
    hash, optional selection context, producer), in the order the
    constructor takes them. *)
Record t : Type := new {
  type : IType;
  id : option string;
  sql : string;
  hash : string;
  selection : option Selection;
  val : Producer
}.

(** Modelled from the spec: [get(raw)], the [resolve(context)] of section
    4.4, invokes the producer; a constant needs no context. *)
Definition get (this : t) (raw : JsVal) : result JsVal :=
  match val this with
  | Constant v => Ok v
  | Deferred f => f raw
  end.

(** Modelled from the spec: [isConstant], an evaluator is constant when it
    requires no context to resolve (section 3). *)
Definition isConstant (this : t) : bool :=
  match val this with
  | Constant _ => true
  | Deferred _ => false
  end.

(** Modelled from the spec: [setType], the [retype] of section 4.4, a copy
    with another descriptor and the same key, display form, hash, context
    and producer. *)
Definition setType (this : t) (type' : IType) : t :=
  new type' (id this) (sql this) (hash this) (selection this) (val this).

(** Modelled from the spec: [setValue], the [withProducer] of section 4.4,
    a copy in which only the producer is replaced. *)
Definition setValue (this : t) (val' : JsVal -> result JsVal) : t :=
  new (type this) (id this) (sql this) (hash this) (selection this) (Deferred val').

End Evaluator.

(** An [IValue] is an [Evaluator] or some other implementation of the
    interface, of which only the type tag is visible here. *)
Inductive IValue : Type :=
| IsEvaluator (e : Evaluator.t)
| NotEvaluator (type : IType).

Definition IValue_type (a : IValue) : IType :=
  match a with
  | IsEvaluator e => Evaluator.type e
  | NotEvaluator t => t
  end.

Definition IValue_get (a : IValue) (raw : JsVal) : result JsVal :=
  match a with
  | IsEvaluator e => Evaluator.get e raw
  | NotEvaluator _ => Unmodelled
  end.

(** The collaborators of section 6 the conversions call: the date/time parser
    ([moment(input)]: the instant denoted, nothing when invalid) and the
    display form the constant factory gives a datum. *)
Class Collaborators : Type := {
  moment : JsVal -> option Z;
  describe : JsVal -> string
}.

Module Value.

(** Modelled from the spec: [Value.null()] of [valuetypes.ts], the
    canonical null constant of section 6; its fields are those
    [NullType.doConvert] gives a null. *)
Definition null : Evaluator.t :=
  Evaluator.new Types_null None "null" "null" None (Constant JNull).

(** Modelled from the spec: [Value.constant(value, type)] of
    [valuetypes.ts], the constant-value factory of section 6: a resolved
    value of the given descriptor. *)
Definition constant `{Collaborators} (value : JsVal) (type : IType) : Evaluator.t :=
  Evaluator.new type None (describe value) (describe value) None (Constant value).

End Value.

(** ** Conversions *)

Definition NullType_doConvert (value : Evaluator.t) (to : IType) : Evaluator.t :=
  Evaluator.new to None "null" "null" None (Constant JNull).

Definition NullType_doCanConvert (to : IType) : bool := true.

Definition NumberType_canConvert (to : IType) : bool :=
  match primary to with
  | DataType.int | DataType.long | DataType.float | DataType.decimal => true
  | _ => false
  end.

(** [typeof got === 'number' ? Math.round(got) : got] *)
Definition round_if_number (got : JsVal) : JsVal :=
  match got with
  | JNum x => JNum (Math_round x)
  | _ => got
  end.

Definition NumberType_doConvert (value : Evaluator.t) (to : IType) : Evaluator.t :=
  if negb (has integers (primary (Evaluator.type value))) && has integers (primary to)
  then
    Evaluator.new to (Evaluator.id value) (Evaluator.sql value) (Evaluator.hash value)
      (Evaluator.selection value)
      (Deferred (fun raw => got ← Evaluator.get value raw; Ok (round_if_number got)))
  else
    Evaluator.new to (Evaluator.id value) (Evaluator.sql value) (Evaluator.hash value)
      (Evaluator.selection value) (Evaluator.val value).

(** [undefined], which the caller tests for truth, is [false] here. *)
Definition TextType_doCanConvert (to : IType) : bool :=
  match primary to with
  | DataType.timestamp => true
  | DataType.text => true
  | p => has numbers p
  end.

(** The [len] of a descriptor cast to [TextType]. *)
Definition TextType_len (t : IType) : option number :=
  match t with
  | TextType _ len => len
  | _ => None
  end.

(** A [number | null] as an operand of [<]. *)
Definition len_operand (len : option number) : number := default (S754_zero false) len.

(** [str.length > len] *)
Definition longer_than (str : JsVal) (len : number) : result bool :=
  match str with
  | JNull | JUndefined => Throw TypeError
  | JStr s => Ok (num_gt (ofNat (String.length s)) len)
  | JArr l => Ok (num_gt (ofNat (length l)) len)
  | JBool _ | JNum _ | JMoment _ => Ok false
  end.

(** The producer of a cast to a text with a bound. *)
Definition checkLength (value : Evaluator.t) (len : number) (raw : JsVal) : result JsVal :=
  str ← Evaluator.get value raw;
  long ← longer_than str len;
  if long : bool then Throw (QueryError_valueTooLong len) else Ok str.

(** The producer of a cast to a number. *)
Definition parseNumber (value : Evaluator.t) (to : IType) (isInt : bool) (raw : JsVal)
    : result JsVal :=
  str ← Evaluator.get value raw;
  match str with
  | JNull | JUndefined => Ok JNull
  | JStr str =>
      let val := parseFloat str in
      if negb (isFinite val) then Throw (QueryError_invalidInputSyntax (primary to) str)
      else if isInt && negb (num_eq (Math_floor val) val)
      then Throw (QueryError_invalidInputSyntax (primary to) str)
      else Ok (JNum val)
  | _ => Unmodelled
  end.

(** [None] is the [undefined] the method returns when no case applies. *)
Definition TextType_doConvert `{Collaborators} (value : Evaluator.t) (to : IType)
    : option Evaluator.t :=
  match primary to with
  | DataType.timestamp =>
      Some (Evaluator.new Types_timestamp (Evaluator.id value) (Evaluator.sql value)
              (Evaluator.hash value) (Evaluator.selection value)
              (Deferred (fun raw => got ← Evaluator.get value raw; Ok (JMoment (moment got)))))
  | DataType.text =>
      let fromStr := to in
      let toStr := to in
      match TextType_len toStr with
      | None => Some (Evaluator.setType value to)
      | Some len =>
          if num_lt (len_operand (TextType_len fromStr)) len
          then Some (Evaluator.setType value to)
          else Some (Evaluator.setValue (Evaluator.setType value toStr) (checkLength value len))
      end
  | p =>
      if has numbers p then
        let isInt := has integers (primary to) in
        Some (Evaluator.setValue (Evaluator.setType value to) (parseNumber value to isInt))
      else None
  end.

(** [arr.map(f)], a [TypeError] when [arr] has no [map]. *)
Definition Array_map (f : JsVal -> result JsVal) (arr : JsVal) : result JsVal :=
  match arr with
  | JArr l => JArr <$> mapM f l
  | _ => Throw TypeError
  end.

(** [ArrayType.doConvert], over
    [x => Value.constant(x, valueType.of).convert(to.of).get(raw)]. *)
Definition ArrayType_doConvert (convert_element : JsVal -> JsVal -> result JsVal)
    (value : Evaluator.t) (to : IType) : Evaluator.t :=
  Evaluator.new to (Evaluator.id value) (Evaluator.sql value) (Evaluator.hash value)
    (Evaluator.selection value)
    (Deferred (fun raw => arr ← Evaluator.get value raw;
                          Array_map (fun x => convert_element x raw) arr)).

Definition is_ArrayType (t : IType) : bool :=
  match t with ArrayType _ _ => true | _ => false end.

Fixpoint depth (t : IType) : nat :=
  match t with
  | ArrayType _ of_ => S (depth of_)
  | _ => O
  end.

(** [this.canConvert(to)] for a resolved [to]: the method of [TypeBase], which
    [NumberType] overrides; a class without [doCanConvert] answers
    [undefined], which is [false] here.  Under [ArrayType] the hook is
    [to instanceof ArrayType && to.canConvert(this.of)]. *)
Equations? canConvert (this to : IType) : bool by wf (depth this + depth to)%nat lt :=
  canConvert (NumberType _ _) to := NumberType_canConvert to;
  canConvert (BoolType o) to := same_instance to (BoolType o);
  canConvert (TimestampType o) to := same_instance to (TimestampType o);
  canConvert (NullType o) to :=
    if same_instance to (NullType o) then true else NullType_doCanConvert to;
  canConvert (TextType o len) to :=
    if same_instance to (TextType o len) then true else TextType_doCanConvert to;
  canConvert (ArrayType o of_) to :=
    if same_instance to (ArrayType o of_) then true
    else is_ArrayType to && canConvert to of_.
Proof. simpl. lia. Qed.

Definition has_doConvert (this : IType) : bool :=
  match this with
  | BoolType _ | TimestampType _ => false
  | NullType _ | NumberType _ _ | TextType _ _ | ArrayType _ _ => true
  end.

(** [converted.val = converted.val(null)] *)
Definition resolve_now (converted : Evaluator.t) : result Evaluator.t :=
  match Evaluator.val converted with
  | Deferred f =>
      v ← f JNull;
      Ok (Evaluator.new (Evaluator.type converted) (Evaluator.id converted)
            (Evaluator.sql converted) (Evaluator.hash converted)
            (Evaluator.selection converted) (Constant v))
  | Constant _ => Ok converted
  end.

Definition val_is_null (e : Evaluator.t) : bool :=
  match Evaluator.val e with
  | Constant JNull => true
  | _ => false
  end.

(** The end of [convert], once [doConvert] has answered. *)
Definition finish (this : IType) (a : Evaluator.t) (to : IType)
    (converted : option Evaluator.t) : result IValue :=
  match converted with
  | None => Throw (CastError (primary this) (primary to))
  | Some converted =>
      if Evaluator.isConstant a then
        converted ← resolve_now converted;
        if val_is_null converted then Ok (IsEvaluator Value.null)
        else Ok (IsEvaluator converted)
      else Ok (IsEvaluator converted)
  end.

(** [this.convert(a, to)] for a resolved [to].  [valueType] is [a.type]: the
    elements of an array are converted by the [convert] of [valueType.of],
    which is how the recursion descends. *)
Fixpoint convert_at `{Collaborators} (valueType this : IType) (a : IValue) (to : IType)
    {struct valueType} : result IValue :=
  if same_instance to this then Ok a
  else if negb (canConvert this to) || negb (has_doConvert this)
  then Throw (CastError (primary this) (primary to))
  else
    match a with
    | NotEvaluator _ => Throw (CastError (primary this) (primary to))
    | IsEvaluator value =>
          match this with
          | BoolType _ | TimestampType _ => Throw (CastError (primary this) (primary to))
          | NullType _ => finish this value to (Some (NullType_doConvert value to))
          | NumberType _ _ => finish this value to (Some (NumberType_doConvert value to))
          | TextType _ _ => finish this value to (TextType_doConvert value to)
          | ArrayType _ _ =>
              match valueType, to with
              | ArrayType _ value_of, ArrayType _ to_of =>
                  finish this value to
                    (Some (ArrayType_doConvert
                             (fun x raw =>
                                c ← convert_at value_of value_of
                                      (IsEvaluator (Value.constant x value_of)) to_of;
                                IValue_get c raw)
                             value to))
              | _, _ => Unmodelled
              end
          end
    end.

Definition convert `{Collaborators} (this : IType) (a : IValue) (to : IType) : result IValue :=
  convert_at (IValue_type a) this a to.

(** [evaluator.convert(to)]: [this.type.convert(this, to)]. *)
Definition Evaluator_convert `{Collaborators} (e : Evaluator.t) (to : IType) : result IValue :=
  convert (Evaluator.type e) (IsEvaluator e) to.

(** Collaborators for closed examples: no string denotes a date, and a
    constant has an empty display form. *)
Definition plain : Collaborators :=
  {| moment := fun _ => None; describe := fun _ => EmptyString |}.

(** Values and descriptors the examples share. *)
Definition num (literal : string) : JsVal := JNum (parseFloat literal).
Definition at_ms (t : Z) : JsVal := JMoment (Some t).
Definition column (type : IType) (v : JsVal) : Evaluator.t :=
  Evaluator.new type (Some "c"%string) "c" "c" (Some 1%positive) (Deferred (fun _ => Ok v)).

(** A later use of the registry: one call of a factory. *)
Inductive Request : Type :=
| TextRequest (len : MaxLength)
| ArrayRequest (of_ : IType).

Definition serve (r : Registry) (q : Request) : Registry :=
  match q with
  | TextRequest len => snd (makeText len r)
  | ArrayRequest of_ => snd (makeArray of_ r)
  end.

Definition serve_all (qs : list Request) (r : Registry) : Registry := fold_left serve qs r.

(** Two length arguments that the memo table of [makeText] takes for the same
    key: absent and null are one, and so are [+0] and [-0]. *)
Definition same_length (len len' : MaxLength) : Prop :=
  mapKey (nullish (defaultNull len)) = mapKey (nullish (defaultNull len')).

(** The kinds [Types] holds an instance for. *)
Definition primitives : list DataType.t :=
  [DataType.bool; DataType.timestamp; DataType.null; DataType.float; DataType.int;
   DataType.long].

Definition text_key (len : MaxLength) : option number := mapKey (nullish (defaultNull len)).

(** [Math.floor(val) !== val] is false. *)
Definition whole (val : number) : bool := num_eq (Math_floor val) val.

(** The design document's rule for a cast of text to a number, as it is
    worded, for one realized string and one numeric target: the cast fails
    exactly when the string is unparseable as a number (the parse yields no
    number, NaN) or the target is an integer kind and the parsed value is not
    whole. *)
Definition fails_as_claimed (outcome : result JsVal) (to : IType) (str : string) : Prop :=
  outcome = Throw (QueryError_invalidInputSyntax (primary to) str)
  <-> (parseFloat str = NaN \/ (has integers (primary to) = true /\ whole (parseFloat str) = false)).

(** A registry in which some parameterized types have been requested, and
    the instances it holds for them. *)
Definition world : Registry :=
  serve_all
    [TextRequest LenUndefined; TextRequest (LenNumber (ofZ 3));
     TextRequest (LenNumber (ofZ 5)); TextRequest (LenNumber (ofZ 10));
     ArrayRequest Types_int; ArrayRequest Types_float]
    initial.

Definition text_unbounded : IType := fst (makeText LenUndefined world).
Definition text_3 : IType := fst (makeText (LenNumber (ofZ 3)) world).
Definition text_5 : IType := fst (makeText (LenNumber (ofZ 5)) world).
Definition text_10 : IType := fst (makeText (LenNumber (ofZ 10)) world).
Definition array_of_int : IType := fst (makeArray Types_int world).
Definition array_of_float : IType := fst (makeArray Types_float world).
Definition array_of_array_of_int : IType := fst (makeArray array_of_int world).

(** The design document's order of arrays, as it is worded, for greater-than:
    the first index at which the elements differ decides, by the order of the
    elements there; when one array is a prefix of the other, the longer one
    is the greater. *)
Fixpoint greater_as_claimed (of_equals of_gt : JsVal -> JsVal -> option bool)
    (a b : list JsVal) : option bool :=
  match a, b with
  | x :: a', y :: b' =>
      same ← of_equals x y;
      if same : bool then greater_as_claimed of_equals of_gt a' b' else of_gt x y
  | _ :: _, [] => Some true
  | [], _ => Some false
  end.

(** The design document's condition for a cast between array types, as it
    is worded: the target is an array type whose element type and the source
    element type convert into each other. *)
Definition array_cast_as_claimed (this to : IType) : bool :=
  match this, to with
  | ArrayType _ of_, ArrayType _ to_of => canConvert of_ to_of && canConvert to_of of_
  | _, _ => false
  end.

Definition ints_elt (z : Z) : JsVal := JNum (ofZ z).
Definition ints (l : list Z) : JsVal := JArr (map ints_elt l).

(** The instances a registry has issued. *)
Definition issued (r : Registry) (t : IType) : Prop :=
  (exists k, texts r !! k = Some t) \/ (exists k, arrays r !! k = Some t).

(** The allocator is ahead of every instance issued, and no two entries of
    the memo tables hold instances of the same identity. *)
Record well_formed (r : Registry) : Prop := {
  wf_start : (7 <= next_oid r)%positive;
  wf_fresh : forall t, issued r t -> (oid_of t < next_oid r)%positive;
  wf_texts : forall k k' t t',
    texts r !! k = Some t -> texts r !! k' = Some t' -> oid_of t = oid_of t' -> k = k';
  wf_arrays : forall k k' t t',
    arrays r !! k = Some t -> arrays r !! k' = Some t' -> oid_of t = oid_of t' -> k = k';
  wf_apart : forall k k' t t',
    texts r !! k = Some t -> arrays r !! k' = Some t' -> oid_of t <> oid_of t'
}.

(** The same evaluator with its value behind a function of the context. *)
Definition deferred (a : Evaluator.t) : Evaluator.t :=
  Evaluator.setValue a (Evaluator.get a).

Definition is_NullType (t : IType) : bool :=
  match t with NullType _ => true | _ => false end.

Definition is_TextType (t : IType) : bool :=
  match t with TextType _ _ => true | _ => false end.

Definition is_NumberType (t : IType) : bool :=
  match t with NumberType _ _ => true | _ => false end.
(** A type with no timestamp in it. *)
Fixpoint timestamp_free (t : IType) : bool :=
  match t with
  | TimestampType _ => false
  | ArrayType _ of_ => timestamp_free of_
  | BoolType _ | NullType _ | NumberType _ _ | TextType _ _ => true
  end.
(** What the factories keep true of the registry, besides [well_formed]:
    every entry of [texts] is a [TextType] whose length is the key, every
    entry of [arrays] an [ArrayType] of the element whose identity is the
    key, no instance has the identity of an instance of [Types], and the
    allocator has handed out one identity per entry. *)
Record registry_sound (r : Registry) : Prop := {
  sound_texts : forall k t,
    texts r !! k = Some t -> exists o len, t = TextType o len /\ mapKey len = k;
  sound_arrays : forall k t,
    arrays r !! k = Some t -> exists o of_, t = ArrayType o of_ /\ oid_of of_ = k;
  sound_above : forall t, issued r t -> (7 <= oid_of t)%positive;
  sound_count :
    Pos.to_nat (next_oid r) = (7 + size (texts r) + size (arrays r))%nat
}.

(** ** Numbers *)

Section Numbers.

Lemma fexp_normal e : -1021 <= e -> fexp prec emax e = e - 53.
Proof. intros. unfold fexp, emin, prec, emax. lia. Qed.

Lemma digits2_pos_iter_xO p q :
  Zpos (digits2_pos (Pos.iter xO p q)) = Zpos (digits2_pos p) + Zpos q.
Proof.
  induction q as [|q IH] using Pos.peano_ind.
  - simpl. lia.
  - rewrite Pos.iter_succ. simpl. lia.
Qed.

Lemma iter_xO_value p q : Zpos (Pos.iter xO p q) = Zpos p * 2 ^ Zpos q.
Proof.
  induction q as [|q IH] using Pos.peano_ind.
  - simpl. lia.
  - rewrite Pos.iter_succ, Pos2Z.inj_xO, IH, Pos2Z.inj_succ, Z.pow_succ_r by lia. lia.
Qed.

Lemma digits2_pos_bounds p :
  2 ^ (Zpos (digits2_pos p) - 1) <= Zpos p < 2 ^ Zpos (digits2_pos p).
Proof.
  induction p as [p IH|p IH|]; simpl digits2_pos.
  - rewrite Pos2Z.inj_succ, Z.pow_succ_r by lia.
    replace (Z.succ (Zpos (digits2_pos p)) - 1) with (Z.succ (Zpos (digits2_pos p) - 1)) by lia.
    rewrite Z.pow_succ_r by lia. lia.
  - rewrite Pos2Z.inj_succ, Z.pow_succ_r by lia.
    replace (Z.succ (Zpos (digits2_pos p)) - 1) with (Z.succ (Zpos (digits2_pos p) - 1)) by lia.
    rewrite Z.pow_succ_r by lia. lia.
  - simpl. lia.
Qed.

Lemma digits2_pos_small p : Zpos p < 2 ^ 53 -> Zpos (digits2_pos p) <= 53.
Proof.
  intros Hp. pose proof (digits2_pos_bounds p) as [Hlo _].
  destruct (Z_le_gt_dec (Zpos (digits2_pos p)) 53) as [|Hgt]; [assumption|exfalso].
  assert (2 ^ 53 <= 2 ^ (Zpos (digits2_pos p) - 1)) by (apply Z.pow_le_mono_r; lia).
  lia.
Qed.

(** A mantissa of 53 bits with an exponent in range is already rounded. *)
Lemma binary_round_aux_canonical s m e :
  Zpos (digits2_pos m) = 53 -> -1074 <= e <= 971 ->
  binary_round_aux prec emax s (Zpos m) e loc_Exact = S754_finite s m e.
Proof.
  intros Hd He. unfold binary_round_aux.
  assert (Hs : shr_fexp prec emax (Zpos m) e loc_Exact
               = ({| shr_m := Zpos m; shr_r := false; shr_s := false |}, e)).
  { unfold shr_fexp. simpl Zdigits2. rewrite Hd, fexp_normal by lia.
    replace (53 + e - 53 - e) with 0 by lia. reflexivity. }
  rewrite Hs. simpl. rewrite Hs. simpl. change (emax - prec) with 971.
  destruct (Z.leb_spec e 971); [reflexivity|lia].
Qed.

(** An integer below 2^53 in magnitude is a number: [ofZ] only shifts it
    into canonical position. *)
Lemma binary_round_integer s p :
  Zpos p < 2 ^ 53 ->
  exists m e, binary_round prec emax s p 0 = S754_finite s m e
    /\ -52 <= e <= 0 /\ Zpos m = Zpos p * 2 ^ (- e).
Proof.
  intros Hp. apply digits2_pos_small in Hp. unfold binary_round.
  rewrite fexp_normal by lia. unfold shl_align.
  destruct (Zpos (digits2_pos p) + 0 - 53 - 0) as [|q|q] eqn:E; try lia.
  - exists p, 0. rewrite binary_round_aux_canonical by lia.
    repeat split; lia.
  - exists (Pos.iter xO p q), (Zpos (digits2_pos p) + 0 - 53).
    pose proof (digits2_pos_iter_xO p q).
    rewrite binary_round_aux_canonical by lia.
    repeat split; try lia.
    rewrite iter_xO_value. f_equal. f_equal. lia.
Qed.

Lemma toZ_shifted s m e p :
  e <= 0 -> Zpos m = Zpos p * 2 ^ (- e) ->
  toZ (S754_finite s m e) = Some (cond_Zopp s (Zpos p)).
Proof.
  intros He Hm. destruct e as [|e|k]; try lia.
  - simpl in *. do 2 f_equal. lia.
  - change (- Zneg k) with (Zpos k) in Hm. unfold toZ. rewrite Hm.
    assert (0 < 2 ^ Zpos k) by (apply Z.pow_pos_nonneg; lia).
    rewrite Z.mod_mul, Z.div_mul by lia. reflexivity.
Qed.

Lemma toZ_ofZ z : Z.abs z < 2 ^ 53 -> toZ (ofZ z) = Some z.
Proof.
  intros Hz. destruct z as [|p|p]; [reflexivity| |].
  - destruct (binary_round_integer false p) as (m & e & E & He & Hm); [lia|].
    unfold ofZ, binary_normalize. rewrite E.
    now rewrite (toZ_shifted false m e p) by lia.
  - destruct (binary_round_integer true p) as (m & e & E & He & Hm); [lia|].
    unfold ofZ, binary_normalize. rewrite E.
    now rewrite (toZ_shifted true m e p) by lia.
Qed.

Lemma toZ_integral s r : Z.abs r < 2 ^ 53 -> toZ (integral s r) = Some r.
Proof.
  intros Hr. unfold integral. destruct (Z.eqb_spec r 0) as [-> |]; [reflexivity|].
  now apply toZ_ofZ.
Qed.

(** The order of an integer and the literals it is compared with. *)
Lemma ofZ_sign z :
  Z.abs z < 2 ^ 53 ->
  match z with
  | Z0 => ofZ z = S754_zero false
  | Zpos _ => exists m e, ofZ z = S754_finite false m e /\ -52 <= e
  | Zneg _ => exists m e, ofZ z = S754_finite true m e
  end.
Proof.
  intros Hz. destruct z as [|p|p]; [reflexivity| |].
  - destruct (binary_round_integer false p) as (m & e & E & He & _); [lia|].
    exists m, e. split; [exact E|lia].
  - destruct (binary_round_integer true p) as (m & e & E & _); [lia|].
    now exists m, e.
Qed.

Lemma ofZ_lt_tenth z : Z.abs z < 2 ^ 53 -> num_lt (ofZ z) lit_0_1 = (z <=? 0).
Proof.
  intros Hz. pose proof (ofZ_sign z Hz) as Hs.
  destruct z as [|p|p].
  - now rewrite Hs.
  - destruct Hs as (m & e & -> & He). unfold num_lt, SFltb, lit_0_1.
    cbv beta iota delta [SFcompare].
    destruct (Z.compare_spec e (-56)); lia.
  - destruct Hs as (m & e & ->). reflexivity.
Qed.

Lemma ofZ_gt_zero z : Z.abs z < 2 ^ 53 -> num_gt (ofZ z) (S754_zero false) = (0 <? z).
Proof.
  intros Hz. pose proof (ofZ_sign z Hz) as Hs.
  destruct z as [|p|p].
  - now rewrite Hs.
  - now destruct Hs as (m & e & -> & He).
  - now destruct Hs as (m & e & ->).
Qed.

Lemma ofZ_lt_zero z : Z.abs z < 2 ^ 53 -> num_lt (ofZ z) (S754_zero false) = (z <? 0).
Proof.
  intros Hz. pose proof (ofZ_sign z Hz) as Hs.
  destruct z as [|p|p].
  - now rewrite Hs.
  - now destruct Hs as (m & e & -> & He).
  - now destruct Hs as (m & e & ->).
Qed.

(** No number is less than itself. *)
Lemma num_lt_irrefl x : num_lt x x = false.
Proof.
  unfold num_lt, SFltb.
  destruct x as [[]|[]| |[] m e]; simpl; try reflexivity;
    rewrite Z.compare_refl, Pos.compare_cont_refl; reflexivity.
Qed.

(** The mantissa of a number of the format with a fractional part. *)
Lemma binary64_fraction s m k :
  binary64 (S754_finite s m (Zneg k)) = true -> Zpos m < 2 ^ 53 /\ Zpos k <= 1074.
Proof.
  unfold binary64, valid_binary, bounded, canonical_mantissa, fexp, emin, prec, emax.
  intros Hv. apply andb_prop in Hv as [Hc _]. apply Z.eqb_eq in Hc.
  pose proof (digits2_pos_bounds m) as [_ Hhi].
  assert (Zpos (digits2_pos m) <= 53) by lia.
  split; [|lia].
  eapply Z.lt_le_trans; [exact Hhi|]. apply Z.pow_le_mono_r; lia.
Qed.

End Numbers.

(** ** The null-aware comparisons *)

Section Comparisons.

Variable this : IType.

Lemma equals_null_r a : TypeBase.equals this a JNull = Some false.
Proof. unfold TypeBase.equals. simpl. now rewrite orb_true_r. Qed.

Lemma equals_null_l b : TypeBase.equals this JNull b = Some false.
Proof. reflexivity. Qed.

Lemma gt_null_r a : TypeBase.gt this a JNull = Some false.
Proof. unfold TypeBase.gt. simpl. now rewrite orb_true_r. Qed.

Lemma gt_null_l b : TypeBase.gt this JNull b = Some false.
Proof. reflexivity. Qed.

Lemma lt_null_r a : TypeBase.lt this a JNull = Some false.
Proof. unfold TypeBase.lt. simpl. now rewrite orb_true_r. Qed.

Lemma lt_null_l b : TypeBase.lt this JNull b = Some false.
Proof. reflexivity. Qed.

Lemma not_null_guard a b :
  a <> JNull -> b <> JNull -> is_null a || is_null b = false.
Proof. destruct a, b; simpl; congruence. Qed.

(** C1. For every type variant, [equals], [gt] and [lt] answer false as soon
    as one operand is the SQL null, in both argument orders and for two
    nulls; when neither operand is null they are the [doEquals], [doGt] and
    [doLt] of the variant. *)
Theorem null_never_compares (a b : JsVal) :
  (TypeBase.equals this a JNull = Some false
   /\ TypeBase.equals this JNull b = Some false
   /\ TypeBase.gt this a JNull = Some false
   /\ TypeBase.gt this JNull b = Some false
   /\ TypeBase.lt this a JNull = Some false
   /\ TypeBase.lt this JNull b = Some false)
  /\ (a <> JNull -> b <> JNull ->
      TypeBase.equals this a b = doEquals this a b
      /\ TypeBase.gt this a b = doGt this a b
      /\ TypeBase.lt this a b = doLt this a b).
Proof.
  split.
  - repeat split;
      auto using equals_null_r, equals_null_l, gt_null_r, gt_null_l, lt_null_r, lt_null_l.
  - intros Ha Hb. unfold TypeBase.equals, TypeBase.gt, TypeBase.lt.
    now rewrite (not_null_guard a b Ha Hb).
Qed.

End Comparisons.

Lemma null_never_compares_witness :
  TypeBase.equals Types_int (num "1") (num "1") = doEquals Types_int (num "1") (num "1")
  /\ TypeBase.gt Types_int (num "1") (num "1") = doGt Types_int (num "1") (num "1")
  /\ TypeBase.lt Types_int (num "1") (num "1") = doLt Types_int (num "1") (num "1").
Proof.
  apply (proj2 (null_never_compares Types_int (num "1") (num "1"))); discriminate.
Defined.

(** ** The registry *)

Section Registry.

Implicit Types (r : Registry) (len : MaxLength) (t : IType).

Lemma makeText_hit r len t :
  texts r !! text_key len = Some t -> makeText len r = (t, r).
Proof. unfold makeText, text_key. now intros ->. Qed.

Lemma makeText_recorded r len :
  texts (snd (makeText len r)) !! text_key len = Some (fst (makeText len r)).
Proof.
  unfold makeText, text_key.
  destruct (texts r !! mapKey (nullish (defaultNull len))) eqn:E; simpl; [exact E|].
  apply lookup_insert_eq.
Qed.

Lemma makeArray_hit r of_ t :
  arrays r !! oid_of of_ = Some t -> makeArray of_ r = (t, r).
Proof. unfold makeArray. now intros ->. Qed.

Lemma makeArray_recorded r of_ :
  arrays (snd (makeArray of_ r)) !! oid_of of_ = Some (fst (makeArray of_ r)).
Proof.
  unfold makeArray.
  destruct (arrays r !! oid_of of_) eqn:E; simpl; [exact E|].
  apply lookup_insert_eq.
Qed.

(** No call of a factory replaces an entry of a memo table. *)
Lemma serve_keeps_texts r q k t :
  texts r !! k = Some t -> texts (serve r q) !! k = Some t.
Proof.
  intros Hk. destruct q as [len|of_]; simpl.
  - unfold makeText.
    destruct (texts r !! mapKey (nullish (defaultNull len))) eqn:E; simpl; [exact Hk|].
    rewrite lookup_insert_ne; [exact Hk|]. intros <-. congruence.
  - unfold makeArray. now destruct (arrays r !! oid_of of_).
Qed.

Lemma serve_keeps_arrays r q k t :
  arrays r !! k = Some t -> arrays (serve r q) !! k = Some t.
Proof.
  intros Hk. destruct q as [len|of_]; simpl.
  - unfold makeText. now destruct (texts r !! mapKey (nullish (defaultNull len))).
  - unfold makeArray.
    destruct (arrays r !! oid_of of_) eqn:E; simpl; [exact Hk|].
    rewrite lookup_insert_ne; [exact Hk|]. intros <-. congruence.
Qed.

Lemma serve_all_keeps_texts qs r k t :
  texts r !! k = Some t -> texts (serve_all qs r) !! k = Some t.
Proof.
  revert r. induction qs as [|q qs IH]; intros r Hk; simpl; [exact Hk|].
  apply IH. now apply serve_keeps_texts.
Qed.

Lemma serve_all_keeps_arrays qs r k t :
  arrays r !! k = Some t -> arrays (serve_all qs r) !! k = Some t.
Proof.
  revert r. induction qs as [|q qs IH]; intros r Hk; simpl; [exact Hk|].
  apply IH. now apply serve_keeps_arrays.
Qed.

Lemma makeText_again r len len' qs :
  same_length len len' ->
  makeText len' (serve_all qs (snd (makeText len r)))
  = (fst (makeText len r), serve_all qs (snd (makeText len r))).
Proof.
  intros Hsame. apply makeText_hit.
  apply serve_all_keeps_texts. unfold text_key. rewrite <- Hsame.
  apply makeText_recorded.
Qed.

Lemma makeArray_again r of_ qs :
  makeArray of_ (serve_all qs (snd (makeArray of_ r)))
  = (fst (makeArray of_ r), serve_all qs (snd (makeArray of_ r))).
Proof.
  apply makeArray_hit, serve_all_keeps_arrays, makeArray_recorded.
Qed.

Lemma primitive_singleton k :
  k ∈ primitives -> exists t, Types k = Some (Descriptor t) /\ primary t = k.
Proof.
  unfold primitives. rewrite !elem_of_cons, elem_of_nil.
  intros [->|[->|[->|[->|[->|[->|[]]]]]]]; eexists; split; reflexivity.
Qed.

(** C8. The factories are memoised: whatever the state of the registry and
    whatever calls come in between, a second [makeText] with an equal length
    (the absent length included) returns the instance the first one returned
    and allocates nothing, a second [makeArray] with the same element
    descriptor does the same, and each kind of [primitives] has one instance
    in [Types], which every resolution by name returns. *)
Theorem factories_memoized r (qs : list Request) :
  (forall len len', same_length len len' ->
     makeText len' (serve_all qs (snd (makeText len r)))
     = (fst (makeText len r), serve_all qs (snd (makeText len r))))
  /\ (forall of_,
     makeArray of_ (serve_all qs (snd (makeArray of_ r)))
     = (fst (makeArray of_ r), serve_all qs (snd (makeArray of_ r))))
  /\ (forall k, k ∈ primitives ->
     exists t, makeType (inl k) = Ok (Descriptor t) /\ primary t = k).
Proof.
  split; [|split].
  - intros len len' Hsame. now apply makeText_again.
  - intros of_. apply makeArray_again.
  - intros k Hk. destruct (primitive_singleton k Hk) as (t & Ht & Hp).
    exists t. split; [|exact Hp]. simpl. now rewrite Ht.
Qed.

End Registry.

Lemma factories_memoized_witness :
  makeText (LenNumber (ofZ 5))
    (serve_all [ArrayRequest Types_int; TextRequest LenNull]
       (snd (makeText (LenNumber (ofZ 5)) initial)))
  = (fst (makeText (LenNumber (ofZ 5)) initial),
     serve_all [ArrayRequest Types_int; TextRequest LenNull]
       (snd (makeText (LenNumber (ofZ 5)) initial)))
  /\ fst (makeText LenUndefined (snd (makeText LenNull initial)))
     = fst (makeText LenNull initial)
  /\ exists t, makeType (inl DataType.int) = Ok (Descriptor t) /\ primary t = DataType.int.
Proof.
  split; [|split].
  - apply (proj1 (factories_memoized initial
                    [ArrayRequest Types_int; TextRequest LenNull])).
    reflexivity.
  - pose proof (proj1 (factories_memoized initial []) LenNull LenUndefined eq_refl) as E.
    simpl in E. now rewrite E.
  - apply (proj2 (proj2 (factories_memoized initial []))).
    unfold primitives. rewrite !elem_of_cons. tauto.
Defined.

(** The instances of [Types] are six distinct objects, none of which a
    factory has issued when the module is loaded. *)
Lemma singletons_distinct :
  NoDup (map oid_of [Types_bool; Types_timestamp; Types_null; Types_float; Types_int;
                     Types_long])
  /\ Forall (fun t => (oid_of t < next_oid initial)%positive)
       [Types_bool; Types_timestamp; Types_null; Types_float; Types_int; Types_long].
Proof.
  split.
  - simpl. repeat (apply NoDup_cons; split; [rewrite ?elem_of_cons, elem_of_nil; intuition discriminate|]).
    apply NoDup_nil. trivial.
  - repeat constructor.
Qed.

(** *** Distinct keys, distinct instances *)

Lemma initial_well_formed : well_formed initial.
Proof.
  split; simpl.
  - reflexivity.
  - intros t [[k Hk]|[k Hk]]; simpl in Hk; rewrite lookup_empty in Hk; discriminate.
  - intros k k' t t' Hk. rewrite lookup_empty in Hk. discriminate.
  - intros k k' t t' Hk. rewrite lookup_empty in Hk. discriminate.
  - intros k k' t t' Hk. rewrite lookup_empty in Hk. discriminate.
Qed.

Lemma makeText_well_formed r len :
  well_formed r -> well_formed (snd (makeText len r)).
Proof.
  intros [Hstart Hfresh Htexts Harrays Hapart]. unfold makeText.
  destruct (texts r !! mapKey (nullish (defaultNull len))) eqn:E; simpl;
    [now split|].
  assert (Hold : forall k t, texts r !! k = Some t -> (oid_of t < next_oid r)%positive)
    by (intros k t Hk; apply Hfresh; left; eauto).
  assert (Hold' : forall k t, arrays r !! k = Some t -> (oid_of t < next_oid r)%positive)
    by (intros k t Hk; apply Hfresh; right; eauto).
  split; simpl.
  - lia.
  - intros t [[k Hk]|[k Hk]]; simpl in Hk.
    + apply lookup_insert_Some in Hk as [[_ <-]|[_ Hk]]; simpl; [lia|].
      apply Hold in Hk. lia.
    + apply Hold' in Hk. lia.
  - intros k k' t t' Hk Hk' Hoid.
    apply lookup_insert_Some in Hk as [[<- <-]|[Hne Hk]];
      apply lookup_insert_Some in Hk' as [[<- <-]|[Hne' Hk']]; simpl in *.
    + reflexivity.
    + apply Hold in Hk'. lia.
    + apply Hold in Hk. lia.
    + eauto.
  - exact Harrays.
  - intros k k' t t' Hk Hk'.
    apply lookup_insert_Some in Hk as [[<- <-]|[Hne Hk]]; simpl; [|eauto].
    apply Hold' in Hk'. lia.
Qed.

Lemma makeArray_well_formed r of_ :
  well_formed r -> well_formed (snd (makeArray of_ r)).
Proof.
  intros [Hstart Hfresh Htexts Harrays Hapart]. unfold makeArray.
  destruct (arrays r !! oid_of of_) eqn:E; simpl; [now split|].
  assert (Hold : forall k t, texts r !! k = Some t -> (oid_of t < next_oid r)%positive)
    by (intros k t Hk; apply Hfresh; left; eauto).
  assert (Hold' : forall k t, arrays r !! k = Some t -> (oid_of t < next_oid r)%positive)
    by (intros k t Hk; apply Hfresh; right; eauto).
  split; simpl.
  - lia.
  - intros t [[k Hk]|[k Hk]]; simpl in Hk.
    + apply Hold in Hk. lia.
    + apply lookup_insert_Some in Hk as [[_ <-]|[_ Hk]]; simpl; [lia|].
      apply Hold' in Hk. lia.
  - exact Htexts.
  - intros k k' t t' Hk Hk' Hoid.
    apply lookup_insert_Some in Hk as [[<- <-]|[Hne Hk]];
      apply lookup_insert_Some in Hk' as [[<- <-]|[Hne' Hk']]; simpl in *.
    + reflexivity.
    + apply Hold' in Hk'. lia.
    + apply Hold' in Hk. lia.
    + eauto.
  - intros k k' t t' Hk Hk'.
    apply lookup_insert_Some in Hk' as [[<- <-]|[Hne Hk']]; simpl; [|eauto].
    apply Hold in Hk. lia.
Qed.

Lemma serve_all_well_formed qs r : well_formed r -> well_formed (serve_all qs r).
Proof.
  revert r. induction qs as [|[len|of_] qs IH]; intros r Hr; simpl; [exact Hr| |].
  - apply IH. now apply makeText_well_formed.
  - apply IH. now apply makeArray_well_formed.
Qed.

(** The converse of memoisation: in a registry that the factories have
    built, two lengths that are not the same key have two instances. *)
Lemma distinct_lengths_distinct_instances qs len len' :
  ~ same_length len len' ->
  let r := snd (makeText len (serve_all qs initial)) in
  same_instance (fst (makeText len r)) (fst (makeText len' r)) = false.
Proof.
  intros Hne r.
  assert (Hr : well_formed r)
    by (apply makeText_well_formed, serve_all_well_formed, initial_well_formed).
  assert (Hr' : well_formed (snd (makeText len' r))) by now apply makeText_well_formed.
  pose proof (makeText_recorded r len') as Hlen'.
  assert (Hlen : texts (snd (makeText len' r)) !! text_key len = Some (fst (makeText len r))).
  { apply (serve_keeps_texts r (TextRequest len')).
    pose proof (makeText_recorded (serve_all qs initial) len) as Hrec. fold r in Hrec.
    now rewrite (makeText_hit r len _ Hrec). }
  apply Pos.eqb_neq. intros Hoid. apply Hne.
  exact (wf_texts _ Hr' _ _ _ _ Hlen Hlen' Hoid).
Qed.

(** ** [makeType] *)

Lemma makeType_descriptor t : makeType (inr t) = Ok (Descriptor t).
Proof. reflexivity. Qed.

Lemma makeType_primitive k :
  k ∈ primitives -> exists t, makeType (inl k) = Ok (Descriptor t) /\ primary t = k.
Proof.
  intros Hk. destruct (primitive_singleton k Hk) as (t & Ht & Hp).
  exists t. split; [|exact Hp]. simpl. now rewrite Ht.
Qed.

Lemma makeType_unsupported k :
  k = DataType.decimal \/ k = DataType.array ->
  makeType (inl k) = Throw (Error_unsupportedRawType k).
Proof. now intros [->| ->]. Qed.

(** C9, at the name [text]: [Types] has a property under that name, the
    function that calls [makeText], so [makeType] neither throws nor returns a
    descriptor: it returns that function.  The other inputs behave as the
    design document says: a descriptor is returned unchanged, the six names
    of [primitives] give their instance, [decimal] and [array] are refused. *)
Theorem makeType_text_returns_the_factory :
  (exists f, makeType (inl DataType.text) = Ok (Factory f))
  /\ (forall e, makeType (inl DataType.text) <> Throw e)
  /\ (forall t, makeType (inl DataType.text) <> Ok (Descriptor t))
  /\ (forall t, makeType (inr t) = Ok (Descriptor t))
  /\ Forall (fun k => exists t, makeType (inl k) = Ok (Descriptor t) /\ primary t = k)
       primitives
  /\ makeType (inl DataType.decimal) = Throw (Error_unsupportedRawType DataType.decimal)
  /\ makeType (inl DataType.array) = Throw (Error_unsupportedRawType DataType.array).
Proof.
  split; [eexists; reflexivity|].
  split; [discriminate|].
  split; [discriminate|].
  split; [exact makeType_descriptor|].
  split; [apply Forall_forall; intros k Hk; now apply makeType_primitive|].
  split; apply makeType_unsupported; auto.
Qed.

(** ** Text to number *)

Section TextToNumber.

Context `{Collaborators}.
Implicit Types (value : Evaluator.t) (to : IType) (raw : JsVal).

Lemma has_numbers k :
  has numbers k = true ->
  k = DataType.int \/ k = DataType.long \/ k = DataType.decimal \/ k = DataType.float.
Proof. destruct k; vm_compute; intros E; try discriminate E; tauto. Qed.

Lemma TextType_doConvert_number value to :
  has numbers (primary to) = true ->
  TextType_doConvert value to
  = Some (Evaluator.setValue (Evaluator.setType value to)
            (parseNumber value to (has integers (primary to)))).
Proof.
  intros Hn. unfold TextType_doConvert.
  destruct (has_numbers _ Hn) as [E|[E|[E|E]]]; rewrite E in *; reflexivity.
Qed.

Lemma parseNumber_string value to isInt raw str :
  Evaluator.get value raw = Ok (JStr str) ->
  parseNumber value to isInt raw
  = if negb (isFinite (parseFloat str)) || (isInt && negb (whole (parseFloat str)))
    then Throw (QueryError_invalidInputSyntax (primary to) str)
    else Ok (JNum (parseFloat str)).
Proof.
  intros Hget. unfold parseNumber, whole. rewrite Hget. simpl.
  destruct (isFinite (parseFloat str)); simpl; [|reflexivity].
  now destruct (isInt && _).
Qed.

Lemma parseNumber_nullish value to isInt raw :
  Evaluator.get value raw = Ok JNull \/ Evaluator.get value raw = Ok JUndefined ->
  parseNumber value to isInt raw = Ok JNull.
Proof. unfold parseNumber. now intros [-> | ->]. Qed.

(** C10. In a cast from text to a numeric kind, a realized value that is null
    or undefined makes the producer return null: nothing is parsed and no
    error is raised. *)
Theorem null_passes_numeric_cast value to raw :
  has numbers (primary to) = true ->
  Evaluator.get value raw = Ok JNull \/ Evaluator.get value raw = Ok JUndefined ->
  exists converted,
    TextType_doConvert value to = Some converted
    /\ Evaluator.type converted = to
    /\ Evaluator.get converted raw = Ok JNull.
Proof.
  intros Hn Hget. eexists. split; [now apply TextType_doConvert_number|].
  split; [reflexivity|]. now apply parseNumber_nullish.
Qed.

(** C6, amended.  In a cast from text to a numeric kind, a realized string is
    parsed with [parseFloat]; the cast yields the parsed number, unless it
    fails with the invalid-input error, which happens exactly when the parsed
    value is not finite (NaN: no prefix of the string is a numeric literal;
    or an infinity) or the target is an integer kind and the parsed value is
    not whole. *)
Theorem numeric_literal_cast value to raw str :
  has numbers (primary to) = true ->
  Evaluator.get value raw = Ok (JStr str) ->
  exists converted,
    TextType_doConvert value to = Some converted
    /\ Evaluator.type converted = to
    /\ (Evaluator.get converted raw = Throw (QueryError_invalidInputSyntax (primary to) str)
        <-> (isFinite (parseFloat str) = false
             \/ (has integers (primary to) = true /\ whole (parseFloat str) = false)))
    /\ (Evaluator.get converted raw <> Throw (QueryError_invalidInputSyntax (primary to) str)
        -> Evaluator.get converted raw = Ok (JNum (parseFloat str))).
Proof.
  intros Hn Hget. eexists. split; [now apply TextType_doConvert_number|].
  split; [reflexivity|].
  change (Evaluator.get _ raw) with (parseNumber value to (has integers (primary to)) raw).
  rewrite (parseNumber_string _ _ _ _ _ Hget).
  destruct (isFinite (parseFloat str)), (has integers (primary to)),
    (whole (parseFloat str)); simpl; split;
    try (split; [intros E|intros [E|[E1 E2]]]); try intros E;
    solve [ reflexivity | discriminate | congruence | tauto ].
Qed.

End TextToNumber.

Lemma null_passes_numeric_cast_witness :
  exists converted,
    TextType_doConvert (H := plain) (column text_unbounded JNull) Types_int = Some converted
    /\ Evaluator.type converted = Types_int
    /\ Evaluator.get converted JUndefined = Ok JNull.
Proof.
  apply (null_passes_numeric_cast (H := plain)); [reflexivity | left; reflexivity].
Defined.

Lemma numeric_literal_cast_witness :
  exists converted,
    TextType_doConvert (H := plain) (column text_unbounded (JStr "42.5")) Types_int
    = Some converted
    /\ Evaluator.type converted = Types_int
    /\ (Evaluator.get converted JUndefined
        = Throw (QueryError_invalidInputSyntax (primary Types_int) "42.5")
        <-> (isFinite (parseFloat "42.5") = false
             \/ (has integers (primary Types_int) = true /\ whole (parseFloat "42.5") = false)))
    /\ (Evaluator.get converted JUndefined
        <> Throw (QueryError_invalidInputSyntax (primary Types_int) "42.5")
        -> Evaluator.get converted JUndefined = Ok (JNum (parseFloat "42.5"))).
Proof.
  apply (numeric_literal_cast (H := plain)); reflexivity.
Defined.

(** The strings of the design document, cast as constants: ["42"] to [int]
    gives 42, ["42.5"] to [int] and ["abc"] to any numeric type are refused. *)
Lemma numeric_literal_examples :
  (r ← Evaluator_convert (H := plain) (Value.constant (H := plain) (JStr "42") text_unbounded)
         Types_int;
   IValue_get r JNull) = Ok (ints_elt 42)
  /\ Evaluator_convert (H := plain) (Value.constant (H := plain) (JStr "42.5") text_unbounded)
       Types_int
     = Throw (QueryError_invalidInputSyntax DataType.int "42.5")
  /\ Forall (fun to =>
       Evaluator_convert (H := plain) (Value.constant (H := plain) (JStr "abc") text_unbounded) to
       = Throw (QueryError_invalidInputSyntax (primary to) "abc"))
       [Types_int; Types_long; Types_float].
Proof. repeat split; repeat constructor. Qed.

(** The literal [1e999] is a well-formed decimal literal, its value is beyond
    the largest number, so it parses to Infinity, which is not NaN; the cast
    to [float] refuses it all the same. *)
Lemma numeric_literal_cast_counterexample :
  ~ fails_as_claimed
      (r ← convert (H := plain) text_unbounded
             (IsEvaluator (column text_unbounded (JStr "1e999"))) Types_float;
       IValue_get r JUndefined)
      Types_float "1e999".
Proof.
  unfold fails_as_claimed. intros [Hfail _].
  destruct (Hfail eq_refl) as [E|[E _]]; vm_compute in E; discriminate E.
Qed.

(** ** Number to number *)

Section NumberToNumber.

Implicit Types (value : Evaluator.t) (to : IType) (raw : JsVal).

(** [Math.round] picks the nearest integer, the upper one on a tie: for
    [x = n / 2^k] the integer [r] chosen has [r - 1/2 <= x < r + 1/2]. *)
Lemma round_scaled_nearest n k :
  (2 * round_scaled n k - 1) * 2 ^ Zpos k <= 2 * n
  < (2 * round_scaled n k + 1) * 2 ^ Zpos k.
Proof.
  unfold round_scaled. set (d := 2 ^ Zpos k).
  assert (0 < d) by (apply Z.pow_pos_nonneg; lia).
  pose proof (Z.div_mod (2 * n + d) (2 * d) ltac:(lia)) as Hdiv.
  pose proof (Z.mod_pos_bound (2 * n + d) (2 * d) ltac:(lia)) as Hmod.
  nia.
Qed.

(** [Math.floor] picks the greatest integer below: [q <= x < q + 1]. *)
Lemma floor_scaled_below n k :
  floor_scaled n k * 2 ^ Zpos k <= n < (floor_scaled n k + 1) * 2 ^ Zpos k.
Proof.
  unfold floor_scaled. set (d := 2 ^ Zpos k).
  assert (0 < d) by (apply Z.pow_pos_nonneg; lia).
  pose proof (Z.div_mod n d ltac:(lia)) as Hdiv.
  pose proof (Z.mod_pos_bound n d ltac:(lia)) as Hmod.
  nia.
Qed.

(** Rounding a number with a fractional part stays below 2^53. *)
Lemma round_scaled_small s m k :
  Zpos m < 2 ^ 53 -> Z.abs (round_scaled (cond_Zopp s (Zpos m)) k) < 2 ^ 53.
Proof.
  intros Hm. pose proof (round_scaled_nearest (cond_Zopp s (Zpos m)) k) as Hr.
  set (r := round_scaled _ _) in *. set (B := 2 ^ 53) in *.
  assert (2 <= 2 ^ Zpos k).
  { change 2 with (2 ^ 1) at 1. apply Z.pow_le_mono_r; lia. }
  assert (0 < B) by (subst B; lia).
  destruct s; simpl in Hr; nia.
Qed.

Lemma NumberType_doConvert_rounding value to :
  has integers (primary (Evaluator.type value)) = false ->
  has integers (primary to) = true ->
  NumberType_doConvert value to
  = Evaluator.new to (Evaluator.id value) (Evaluator.sql value) (Evaluator.hash value)
      (Evaluator.selection value)
      (Deferred (fun raw => got ← Evaluator.get value raw; Ok (round_if_number got))).
Proof. intros Hs Ht. unfold NumberType_doConvert. now rewrite Hs, Ht. Qed.

Lemma NumberType_doConvert_passthrough value to :
  has integers (primary (Evaluator.type value)) = true \/ has integers (primary to) = false ->
  NumberType_doConvert value to
  = Evaluator.new to (Evaluator.id value) (Evaluator.sql value) (Evaluator.hash value)
      (Evaluator.selection value) (Evaluator.val value).
Proof.
  intros Hor. unfold NumberType_doConvert.
  destruct Hor as [-> | ->]; [reflexivity|]. now rewrite andb_false_r.
Qed.

(** C7. A cast of a [float] or [decimal] evaluator to [int] or [long] gives an
    evaluator of the target type whose producer rounds the realized number
    with [Math.round] when it is resolved: to the nearest integer, so a
    fraction is never merely cut off.  Any other cast inside the numeric
    family keeps the producer as it is and only carries the target type. *)
Theorem numeric_cast_rounds value to :
  (primary (Evaluator.type value) = DataType.float
   \/ primary (Evaluator.type value) = DataType.decimal ->
   primary to = DataType.int \/ primary to = DataType.long ->
   Evaluator.type (NumberType_doConvert value to) = to
   /\ (forall raw x,
         Evaluator.get value raw = Ok (JNum x) ->
         Evaluator.get (NumberType_doConvert value to) raw = Ok (JNum (Math_round x)))
   /\ (forall raw s m k,
         Evaluator.get value raw = Ok (JNum (S754_finite s m (Zneg k))) ->
         binary64 (S754_finite s m (Zneg k)) = true ->
         exists y r,
           Evaluator.get (NumberType_doConvert value to) raw = Ok (JNum y)
           /\ toZ y = Some r
           /\ (2 * r - 1) * 2 ^ Zpos k <= 2 * cond_Zopp s (Zpos m)
              < (2 * r + 1) * 2 ^ Zpos k))
  /\ (has numbers (primary (Evaluator.type value)) = true ->
      has numbers (primary to) = true ->
      has integers (primary (Evaluator.type value)) = true
      \/ has integers (primary to) = false ->
      NumberType_doConvert value to
      = Evaluator.new to (Evaluator.id value) (Evaluator.sql value) (Evaluator.hash value)
          (Evaluator.selection value) (Evaluator.val value)).
Proof.
  split.
  - intros Hs Ht.
    assert (Hs' : has integers (primary (Evaluator.type value)) = false)
      by (destruct Hs as [-> | ->]; reflexivity).
    assert (Ht' : has integers (primary to) = true)
      by (destruct Ht as [-> | ->]; reflexivity).
    rewrite (NumberType_doConvert_rounding _ _ Hs' Ht').
    split; [reflexivity|]. split.
    + intros raw x Hget. unfold Evaluator.get at 1. simpl. now rewrite Hget.
    + intros raw s m k Hget Hx. do 2 eexists. split; [|split].
      * unfold Evaluator.get at 1. simpl. rewrite Hget. reflexivity.
      * apply toZ_integral, round_scaled_small.
        exact (proj1 (binary64_fraction _ _ _ Hx)).
      * apply round_scaled_nearest.
  - intros _ _. apply NumberType_doConvert_passthrough.
Qed.

End NumberToNumber.

Lemma numeric_cast_rounds_witness :
  (Evaluator.type (NumberType_doConvert (column Types_float (num "2.5")) Types_int) = Types_int
   /\ exists y r,
        Evaluator.get (NumberType_doConvert (column Types_float (num "2.5")) Types_int)
          JUndefined = Ok (JNum y)
        /\ toZ y = Some r
        /\ (2 * r - 1) * 2 ^ 51 <= 2 * 5629499534213120 < (2 * r + 1) * 2 ^ 51)
  /\ NumberType_doConvert (column Types_int (num "2")) Types_float
     = Evaluator.new Types_float (Some "c"%string) "c" "c" (Some 1%positive)
         (Evaluator.val (column Types_int (num "2"))).
Proof.
  split.
  - destruct (proj1 (numeric_cast_rounds (column Types_float (num "2.5")) Types_int))
      as (Ht & _ & Hr); [left; reflexivity | left; reflexivity |].
    split; [exact Ht|].
    apply (Hr JUndefined false 5629499534213120%positive 51%positive); reflexivity.
  - apply (proj2 (numeric_cast_rounds (column Types_int (num "2")) Types_float));
      [reflexivity | reflexivity | left; reflexivity].
Defined.

(** Two and a half goes up to three, two and four tenths down to two, for a
    [float] column and for a [decimal] one, to [int] and to [long]; cutting
    the fraction off would give two both times. *)
Lemma rounding_examples :
  Forall (fun source =>
    Forall (fun target =>
      Evaluator.get (NumberType_doConvert (column source (num "2.5")) target) JUndefined
      = Ok (ints_elt 3)
      /\ Evaluator.get (NumberType_doConvert (column source (num "2.4")) target) JUndefined
         = Ok (ints_elt 2))
      [Types_int; Types_long])
    [Types_float; NumberType 99%positive DataType.decimal].
Proof. repeat constructor. Qed.

(** ** Timestamps *)

Section Timestamps.

(** What [TimestampType.doEquals] computes: the difference is signed, so a
    moment equals every moment that is not earlier. *)
Lemma TimestampType_doEquals_order x y :
  Z.abs (x - y) < 2 ^ 53 ->
  TimestampType_doEquals (at_ms x) (at_ms y) = Some (x <=? y).
Proof.
  intros Hd. unfold TimestampType_doEquals. simpl.
  rewrite ofZ_lt_tenth by assumption. f_equal.
  destruct (Z.leb_spec (x - y) 0), (Z.leb_spec x y); lia.
Qed.

Lemma TimestampType_doLt_order x y :
  Z.abs (x - y) < 2 ^ 53 ->
  TimestampType_doLt (at_ms x) (at_ms y) = Some (x <? y).
Proof.
  intros Hd. unfold TimestampType_doLt. simpl.
  rewrite ofZ_lt_zero by assumption. f_equal.
  destruct (Z.ltb_spec (x - y) 0), (Z.ltb_spec x y); lia.
Qed.

Lemma TimestampType_doGt_order x y :
  Z.abs (x - y) < 2 ^ 53 ->
  TimestampType_doGt (at_ms x) (at_ms y) = Some (y <? x).
Proof.
  intros Hd. unfold TimestampType_doGt. simpl.
  rewrite ofZ_gt_zero by assumption. f_equal.
  destruct (Z.ltb_spec 0 (x - y)), (Z.ltb_spec y x); lia.
Qed.

(** Whatever is less is also equal. *)
Lemma timestamp_lt_is_equal x y :
  Z.abs (x - y) < 2 ^ 53 ->
  TypeBase.lt Types_timestamp (at_ms x) (at_ms y) = Some true ->
  TypeBase.equals Types_timestamp (at_ms x) (at_ms y) = Some true.
Proof.
  intros Hd. unfold TypeBase.lt, TypeBase.equals. simpl.
  rewrite TimestampType_doLt_order, TimestampType_doEquals_order by assumption.
  intros [= Hlt]. f_equal. apply Z.ltb_lt in Hlt. apply Z.leb_le. lia.
Qed.

(** C2, at two moments one second apart: the earlier one equals the later
    one, although they differ by a thousand milliseconds, and the later one
    does not equal the earlier one. *)
Theorem timestamp_equality_one_sided :
  TypeBase.equals Types_timestamp (at_ms 0) (at_ms 1000) = Some true
  /\ TypeBase.equals Types_timestamp (at_ms 1000) (at_ms 0) = Some false
  /\ TypeBase.lt Types_timestamp (at_ms 0) (at_ms 1000) = Some true.
Proof. repeat split. Qed.

End Timestamps.

(** ** Arrays *)

Section Arrays.

Implicit Types (p : nat -> option bool) (a b : list JsVal).

Lemma every_index_true p i n :
  every_index p i n = Some true <-> forall j, (i <= j < i + n)%nat -> p j = Some true.
Proof.
  revert i. induction n as [|n IH]; intros i; simpl.
  - split; [intros _ j Hj; lia | reflexivity].
  - destruct (p i) as [[]|] eqn:E; simpl.
    + rewrite IH. split.
      * intros Hall j Hj. destruct (Nat.eq_dec j i) as [-> |]; [exact E|].
        apply Hall. lia.
      * intros Hall j Hj. apply Hall. lia.
    + split; [discriminate|]. intros Hall. rewrite Hall in E by lia. discriminate.
    + split; [discriminate|]. intros Hall. rewrite Hall in E by lia. discriminate.
Qed.

Lemma some_index_true p i n :
  some_index p i n = Some true
  <-> exists j, (i <= j < i + n)%nat /\ p j = Some true
                /\ forall j', (i <= j' < j)%nat -> p j' = Some false.
Proof.
  revert i. induction n as [|n IH]; intros i; simpl.
  - split; [discriminate | intros (j & Hj & _); lia].
  - destruct (p i) as [[]|] eqn:E; simpl.
    + split; [intros _|reflexivity].
      exists i. split; [lia|]. split; [exact E|]. intros j' Hj'. lia.
    + rewrite IH. split.
      * intros (j & Hj & Hp & Hbefore). exists j. split; [lia|]. split; [exact Hp|].
        intros j' Hj'. destruct (Nat.eq_dec j' i) as [-> |]; [exact E|].
        apply Hbefore. lia.
      * intros (j & Hj & Hp & Hbefore). exists j.
        assert (j <> i) by congruence.
        split; [lia|]. split; [exact Hp|]. intros j' Hj'. apply Hbefore. lia.
    + split; [discriminate|]. intros (j & Hj & Hp & Hbefore).
      destruct (Nat.eq_dec j i) as [-> |]; [congruence|].
      rewrite Hbefore in E by lia. discriminate.
Qed.

Lemma some_index_false p i n :
  some_index p i n = Some false <-> forall j, (i <= j < i + n)%nat -> p j = Some false.
Proof.
  revert i. induction n as [|n IH]; intros i; simpl.
  - split; [intros _ j Hj; lia | reflexivity].
  - destruct (p i) as [[]|] eqn:E; simpl.
    + split; [discriminate|]. intros Hall. rewrite Hall in E by lia. discriminate.
    + rewrite IH. split.
      * intros Hall j Hj. destruct (Nat.eq_dec j i) as [-> |]; [exact E|].
        apply Hall. lia.
      * intros Hall j Hj. apply Hall. lia.
    + split; [discriminate|]. intros Hall. rewrite Hall in E by lia. discriminate.
Qed.

(** Equality of arrays: the same length, and every pair of elements equal
    under the comparison of the element type. *)
Lemma ArrayType_doEquals_true of_equals a b :
  ArrayType_doEquals of_equals a b = Some true
  <-> length a = length b
      /\ forall i, (i < length a)%nat -> of_equals (at_index a i) (at_index b i) = Some true.
Proof.
  unfold ArrayType_doEquals.
  destruct (Nat.eqb_spec (length a) (length b)) as [Hlen|Hlen]; simpl.
  - rewrite every_index_true. split.
    + intros Hall. split; [exact Hlen|]. intros i Hi. apply Hall. lia.
    + intros [_ Hall] j Hj. apply Hall. lia.
  - split; [discriminate | intros [Hlen' _]; contradiction].
Qed.

(** Greater-than as the loop decides it: some index of the common prefix has
    a greater left element, or none has and the left array is longer.  What
    the earlier elements are, beyond not being greater, plays no part. *)
Lemma ArrayType_doGt_true of_gt a b :
  ArrayType_doGt of_gt a b = Some true
  <-> (exists i, (i < Nat.min (length a) (length b))%nat
                 /\ of_gt (at_index a i) (at_index b i) = Some true
                 /\ forall j, (j < i)%nat -> of_gt (at_index a j) (at_index b j) = Some false)
      \/ ((forall j, (j < Nat.min (length a) (length b))%nat ->
                     of_gt (at_index a j) (at_index b j) = Some false)
          /\ (length b < length a)%nat).
Proof.
  unfold ArrayType_doGt.
  set (p := fun i => of_gt (at_index a i) (at_index b i)).
  destruct (some_index p 0 (Nat.min (length a) (length b))) as [[]|] eqn:E; simpl.
  - apply some_index_true in E as (i & Hi & Hp & Hbefore).
    split; [intros _|reflexivity]. left. exists i.
    split; [lia|]. split; [exact Hp|]. intros j Hj. apply Hbefore. lia.
  - pose proof (proj1 (some_index_false _ _ _) E) as Hall.
    split.
    + intros [= Hlt]. right. split.
      * intros j Hj. apply Hall. lia.
      * now apply Nat.ltb_lt.
    + intros [(i & Hi & Hp & _)|[_ Hlt]].
      * fold (p i) in Hp. rewrite Hall in Hp by lia. discriminate.
      * f_equal. now apply Nat.ltb_lt.
  - split; [discriminate|].
    intros [(i & Hi & Hp & Hbefore)|[Hall _]].
    + assert (some_index p 0 (Nat.min (length a) (length b)) = Some true) as E'.
      { apply some_index_true. exists i. split; [lia|]. split; [exact Hp|].
        intros j' Hj'. apply Hbefore. lia. }
      congruence.
    + assert (some_index p 0 (Nat.min (length a) (length b)) = Some false) as E'.
      { apply some_index_false. intros j Hj. apply Hall. lia. }
      congruence.
Qed.

Lemma doEquals_ArrayType o of_ a b :
  doEquals (ArrayType o of_) (JArr a) (JArr b)
  = ArrayType_doEquals (TypeBase.equals of_) a b.
Proof. reflexivity. Qed.

Lemma doGt_ArrayType o of_ a b :
  doGt (ArrayType o of_) (JArr a) (JArr b) = ArrayType_doGt (TypeBase.gt of_) a b.
Proof. reflexivity. Qed.

Lemma doLt_ArrayType o of_ a b :
  doLt (ArrayType o of_) (JArr a) (JArr b) = ArrayType_doLt (TypeBase.lt of_) a b.
Proof. reflexivity. Qed.

(** The comparisons the design document lists come out as it says. *)
Lemma array_examples :
  TypeBase.gt array_of_int (ints [1; 2; 3]) (ints [1; 2; 2]) = Some true
  /\ TypeBase.lt array_of_int (ints [1; 2]) (ints [1; 2; 3]) = Some true
  /\ TypeBase.equals array_of_int (ints [1; 2; 3]) (ints [1; 2; 3]) = Some true
  /\ TypeBase.equals array_of_int (ints [1; 2; 3]) (ints [1; 2; 3; 4]) = Some false.
Proof. repeat split. Qed.

(** C4, at [[1,3]] and [[2,2]]: the first index at which they differ is 0,
    where the left element is the smaller one, so the left array is not the
    greater one; the loop of [doGt] goes on to index 1, finds 3 > 2 and
    answers true.  [doLt] answers true as well. *)
Theorem array_order_skips_smaller_elements :
  TypeBase.gt array_of_int (ints [1; 3]) (ints [2; 2]) = Some true
  /\ TypeBase.lt array_of_int (ints [1; 3]) (ints [2; 2]) = Some true
  /\ greater_as_claimed (TypeBase.equals Types_int) (TypeBase.gt Types_int)
       (map ints_elt [1; 3]) (map ints_elt [2; 2]) = Some false.
Proof. repeat split. Qed.

End Arrays.

(** ** Text to text *)

Section TextToText.

Context `{Collaborators}.
Implicit Types (value : Evaluator.t) (to : IType) (raw : JsVal).

(** To a text without a bound: the evaluator with another type tag. *)
Lemma TextType_doConvert_unbounded value o :
  TextType_doConvert value (TextType o None) = Some (Evaluator.setType value (TextType o None)).
Proof. reflexivity. Qed.

(** To a text with a bound: [fromStr] is the target, not [this], so the
    comparison of the two bounds compares the target bound with itself, and
    the length check is installed whatever the bound of the source is. *)
Lemma TextType_doConvert_bounded value o len :
  TextType_doConvert value (TextType o (Some len))
  = Some (Evaluator.setValue (Evaluator.setType value (TextType o (Some len)))
            (checkLength value len)).
Proof. unfold TextType_doConvert. simpl. now rewrite num_lt_irrefl. Qed.

Lemma checkLength_string value len raw str :
  Evaluator.get value raw = Ok (JStr str) ->
  checkLength value len raw
  = if num_gt (ofNat (String.length str)) len
    then Throw (QueryError_valueTooLong len)
    else Ok (JStr str).
Proof. intros Hget. unfold checkLength. now rewrite Hget. Qed.

Lemma checkLength_null value len raw :
  Evaluator.get value raw = Ok JNull -> checkLength value len raw = Throw TypeError.
Proof. intros Hget. unfold checkLength. now rewrite Hget. Qed.

(** What [TextType.doConvert] does honour: building the cast never fails; to
    an unbounded text it is a mere retag; to a bounded text a realized string
    is returned unchanged unless it is longer than the bound, in which case
    resolving fails with the value-too-long error of that bound. *)
Lemma text_cast_checks_length value o bound raw str :
  Evaluator.get value raw = Ok (JStr str) ->
  exists converted,
    TextType_doConvert value (TextType o bound) = Some converted
    /\ Evaluator.type converted = TextType o bound
    /\ match bound with
       | None => converted = Evaluator.setType value (TextType o bound)
       | Some len =>
           Evaluator.get converted raw
           = if num_gt (ofNat (String.length str)) len
             then Throw (QueryError_valueTooLong len)
             else Ok (JStr str)
       end.
Proof.
  intros Hget. destruct bound as [len|].
  - eexists. split; [apply TextType_doConvert_bounded|].
    split; [reflexivity|]. simpl. now apply checkLength_string.
  - eexists. split; [apply TextType_doConvert_unbounded|].
    split; reflexivity.
Qed.

End TextToText.

(** The strings of the design document: ["hello"] does not fit a bound of 3
    and fits a bound of 10. *)
Lemma text_cast_examples :
  (r ← convert (H := plain) text_unbounded
         (IsEvaluator (column text_unbounded (JStr "hello"))) text_3;
   IValue_get r JUndefined) = Throw (QueryError_valueTooLong (ofZ 3))
  /\ (r ← convert (H := plain) text_unbounded
            (IsEvaluator (column text_unbounded (JStr "hello"))) text_10;
      IValue_get r JUndefined) = Ok (JStr "hello").
Proof. split; reflexivity. Qed.

(** C3, at a column of [text(5)] whose value is null, cast to [text(10)]: the
    target bound is not tighter than the source bound, yet the cast is not a
    retag.  Its producer is the length check against 10, which reads
    [str.length] of the null and throws a [TypeError]; the retagged evaluator
    would have resolved to null. *)
Theorem text_cast_to_wider_bound_is_checked :
  TextType_len text_5 = Some (ofZ 5)
  /\ TextType_len text_10 = Some (ofZ 10)
  /\ num_lt (ofZ 5) (ofZ 10) = true
  /\ TextType_doConvert (H := plain) (column text_5 JNull) text_10
     = Some (Evaluator.setValue (Evaluator.setType (column text_5 JNull) text_10)
               (checkLength (column text_5 JNull) (ofZ 10)))
  /\ (r ← convert (H := plain) text_5 (IsEvaluator (column text_5 JNull)) text_10;
      IValue_get r JUndefined) = Throw TypeError
  /\ Evaluator.get (Evaluator.setType (column text_5 JNull) text_10) JUndefined = Ok JNull.
Proof. repeat split. Qed.

(** ** Array to array *)

Section ArrayToArray.

Context `{Collaborators}.
Implicit Types (value : Evaluator.t) (to : IType) (raw : JsVal).

Lemma canConvert_ArrayType o of_ to :
  canConvert (ArrayType o of_) to
  = if same_instance to (ArrayType o of_) then true
    else is_ArrayType to && canConvert to of_.
Proof. now simp canConvert. Qed.

(** What [canConvert] asks between two array types: not whether the element
    types convert into each other, but whether the target array type converts
    to the source element type, that is, whether the source element type is
    the target itself or an array type convertible to the target element
    type. *)
Lemma canConvert_between_arrays o of_ o' of_' :
  canConvert (ArrayType o of_) (ArrayType o' of_')
  = same_instance (ArrayType o' of_') (ArrayType o of_)
    || same_instance of_ (ArrayType o' of_')
    || is_ArrayType of_ && canConvert of_ of_'.
Proof.
  rewrite canConvert_ArrayType. simpl is_ArrayType. rewrite andb_true_l.
  rewrite (canConvert_ArrayType o' of_' of_).
  destruct (same_instance (ArrayType o' of_') (ArrayType o of_)); [reflexivity|].
  now destruct (same_instance of_ (ArrayType o' of_')).
Qed.

(** An array type never converts to a type that is not an array type. *)
Lemma canConvert_array_to_other o of_ to :
  is_ArrayType to = false -> same_instance to (ArrayType o of_) = false ->
  canConvert (ArrayType o of_) to = false.
Proof. intros Ha Hs. rewrite canConvert_ArrayType, Hs, Ha. reflexivity. Qed.

(** An array of elements that are not arrays converts to no other array
    type, whatever the two element types are. *)
Lemma canConvert_flat_array o of_ o' of_' :
  is_ArrayType of_ = false ->
  same_instance (ArrayType o' of_') (ArrayType o of_) = false ->
  same_instance of_ (ArrayType o' of_') = false ->
  canConvert (ArrayType o of_) (ArrayType o' of_') = false.
Proof.
  intros Ha Hs Hs'. rewrite canConvert_between_arrays, Hs, Hs', Ha. reflexivity.
Qed.

(** The evaluator that [ArrayType.doConvert] builds is
    of the target type, keeps the key, display form, hash and context, and is
    deferred: resolving it resolves the source and maps every element
    through the conversion of the element. *)
Lemma ArrayType_doConvert_maps convert_element value to raw :
  Evaluator.type (ArrayType_doConvert convert_element value to) = to
  /\ Evaluator.isConstant (ArrayType_doConvert convert_element value to) = false
  /\ Evaluator.get (ArrayType_doConvert convert_element value to) raw
     = (arr ← Evaluator.get value raw; Array_map (fun x => convert_element x raw) arr).
Proof. repeat split. Qed.

(** The conversion of the elements is the [convert] of the element type of
    the evaluator, applied to each element as a constant. *)
Lemma convert_array_column o value_of o' to_of value :
  Evaluator.type value = ArrayType o value_of ->
  Evaluator.isConstant value = false ->
  same_instance (ArrayType o' to_of) (ArrayType o value_of) = false ->
  canConvert (ArrayType o value_of) (ArrayType o' to_of) = true ->
  convert (ArrayType o value_of) (IsEvaluator value) (ArrayType o' to_of)
  = Ok (IsEvaluator
          (ArrayType_doConvert
             (fun x raw =>
                c ← Evaluator_convert (Value.constant x value_of) to_of;
                IValue_get c raw)
             value (ArrayType o' to_of))).
Proof.
  intros Ht Hc Hs Hcan. unfold convert. simpl IValue_type. rewrite Ht.
  simpl. rewrite Hs, Hcan. simpl. unfold finish. now rewrite Hc.
Qed.

End ArrayToArray.

(** The one cast between registry arrays that [canConvert] lets through,
    from an array of arrays of [int] to an array of [int], builds the deferred
    evaluator; resolving it asks for the cast of an array of [int] to [int],
    which is refused. *)
Lemma nested_array_cast_fails_late :
  convert (H := plain) array_of_array_of_int
    (IsEvaluator (column array_of_array_of_int (JArr [ints [1; 2]]))) array_of_int
  = Ok (IsEvaluator
          (ArrayType_doConvert
             (fun x raw =>
                c ← Evaluator_convert (H := plain) (Value.constant (H := plain) x array_of_int)
                      Types_int;
                IValue_get c raw)
             (column array_of_array_of_int (JArr [ints [1; 2]])) array_of_int))
  /\ (r ← convert (H := plain) array_of_array_of_int
            (IsEvaluator (column array_of_array_of_int (JArr [ints [1; 2]]))) array_of_int;
      IValue_get r JUndefined) = Throw (CastError DataType.array DataType.int).
Proof.
  split; [|reflexivity].
  apply (convert_array_column (H := plain)); reflexivity.
Qed.

(** C5, at an array of [int] and an array of [float]: the element types
    convert into each other, the array types do not, and the cast is refused
    with a [CastError].  In the other direction an array of arrays of [int]
    passes for convertible to an array of [int], whose element type does not
    convert to an array. *)
Theorem array_cast_asks_the_wrong_types :
  canConvert Types_int Types_float = true
  /\ canConvert Types_float Types_int = true
  /\ array_cast_as_claimed array_of_int array_of_float = true
  /\ canConvert array_of_int array_of_float = false
  /\ convert (H := plain) array_of_int (IsEvaluator (column array_of_int (ints [1; 2])))
       array_of_float
     = Throw (CastError DataType.array DataType.array)
  /\ canConvert array_of_array_of_int array_of_int = true
  /\ array_cast_as_claimed array_of_array_of_int array_of_int = false.
Proof. repeat split. Qed.

(** ** The conversion dispatcher *)

Section Dispatcher.

Context `{Collaborators}.
Implicit Types (this to : IType) (value : Evaluator.t) (raw : JsVal).

(** [convert] with the recursion on the type of the evaluator unfolded. *)
Lemma convert_evaluator this value to :
  convert this (IsEvaluator value) to
  = if same_instance to this then Ok (IsEvaluator value)
    else if negb (canConvert this to) || negb (has_doConvert this)
    then Throw (CastError (primary this) (primary to))
    else
      match this with
      | BoolType _ | TimestampType _ => Throw (CastError (primary this) (primary to))
      | NullType _ => finish this value to (Some (NullType_doConvert value to))
      | NumberType _ _ => finish this value to (Some (NumberType_doConvert value to))
      | TextType _ _ => finish this value to (TextType_doConvert value to)
      | ArrayType _ _ =>
          match Evaluator.type value, to with
          | ArrayType _ value_of, ArrayType _ to_of =>
              finish this value to
                (Some (ArrayType_doConvert
                         (fun x raw =>
                            c ← Evaluator_convert (Value.constant x value_of) to_of;
                            IValue_get c raw)
                         value to))
          | _, _ => Unmodelled
          end
      end.
Proof.
  unfold convert. simpl IValue_type.
  destruct (Evaluator.type value); reflexivity.
Qed.

Lemma convert_not_evaluator this t to :
  convert this (NotEvaluator t) to
  = if same_instance to this then Ok (NotEvaluator t)
    else Throw (CastError (primary this) (primary to)).
Proof.
  unfold convert. simpl IValue_type.
  destruct t; simpl; destruct (same_instance to this); try reflexivity;
    now destruct (negb (canConvert this to) || negb (has_doConvert this)).
Qed.

Lemma TextType_doConvert_defined value to :
  TextType_doCanConvert to = true -> exists c, TextType_doConvert value to = Some c.
Proof.
  unfold TextType_doCanConvert, TextType_doConvert.
  destruct (primary to) eqn:E; intros Hc;
    try discriminate Hc; try (rewrite Hc; eauto); [| eauto].
  destruct (TextType_len to) as [len|]; [|eauto].
  destruct (num_lt _ len); eauto.
Qed.

Lemma TextType_doConvert_type value to c :
  TextType_doConvert value to = Some c ->
  Evaluator.type c = to
  \/ (primary to = DataType.timestamp /\ Evaluator.type c = Types_timestamp).
Proof.
  unfold TextType_doConvert.
  destruct (primary to) eqn:E;
    try match goal with
        | |- context [has numbers ?k] =>
            let b := eval vm_compute in (has numbers k) in
            change (has numbers k) with b
        end;
    try discriminate;
    try (intros [= <-]; left; reflexivity).
  - destruct (TextType_len to) as [len|]; [destruct (num_lt _ len)|];
      intros [= <-]; left; reflexivity.
  - intros [= <-]. right. split; reflexivity.
Qed.

Lemma canConvert_not_hooked this to :
  has_doConvert this = false -> canConvert this to = same_instance to this.
Proof. destruct this; try discriminate; intros _; now simp canConvert. Qed.

Lemma finish_lazy this value to c :
  Evaluator.isConstant value = false ->
  finish this value to (Some c) = Ok (IsEvaluator c).
Proof. intros Hc. unfold finish. now rewrite Hc. Qed.

(** X1. For an evaluator that is not a constant, [canConvert] tells what
    [convert] does: when the target is the type itself or [canConvert]
    accepts it, [convert] returns an evaluator; otherwise it throws the
    [CastError] of the two kinds.  Nothing else can come out of it: the
    errors of lengths and literals wait for the value to be resolved. *)
Theorem convert_follows_canConvert this value to :
  Evaluator.type value = this ->
  Evaluator.isConstant value = false ->
  (same_instance to this || canConvert this to = true ->
   exists r, convert this (IsEvaluator value) to = Ok (IsEvaluator r))
  /\ (same_instance to this || canConvert this to = false ->
      convert this (IsEvaluator value) to = Throw (CastError (primary this) (primary to))).
Proof.
  intros Ht Hlazy. rewrite convert_evaluator.
  destruct (same_instance to this) eqn:Hs; cbn [orb].
  { split; [eauto | discriminate]. }
  destruct (canConvert this to) eqn:Hc; cbn [negb orb]; split;
    try discriminate; try reflexivity.
  intros _.
  destruct (has_doConvert this) eqn:Hh; cbn [negb].
  - destruct this as [o|o|o|o p|o len|o of_]; try discriminate Hh.
    + rewrite finish_lazy by assumption. eauto.
    + rewrite finish_lazy by assumption. eauto.
    + simp canConvert in Hc. rewrite Hs in Hc.
      destruct (TextType_doConvert_defined value to Hc) as [c ->].
      rewrite finish_lazy by assumption. eauto.
    + rewrite Ht. rewrite canConvert_ArrayType, Hs in Hc.
      apply andb_prop in Hc as [Ha _].
      destruct to; try discriminate Ha.
      rewrite finish_lazy by assumption. eauto.
  - rewrite (canConvert_not_hooked _ _ Hh) in Hc. congruence.
Qed.

Lemma resolve_now_constant c c' :
  resolve_now c = Ok c' ->
  Evaluator.isConstant c' = true /\ Evaluator.type c' = Evaluator.type c.
Proof.
  unfold resolve_now, Evaluator.isConstant.
  destruct (Evaluator.val c) as [v|f] eqn:E.
  - intros [= <-]. now rewrite E.
  - destruct (f JNull); try discriminate. intros [= <-]. split; reflexivity.
Qed.

Lemma finish_result this value to c res :
  finish this value to (Some c) = Ok res ->
  exists r, res = IsEvaluator r
    /\ (Evaluator.type r = Evaluator.type c \/ r = Value.null)
    /\ (Evaluator.isConstant value = true ->
        Evaluator.isConstant r = true /\ (val_is_null r = true -> r = Value.null)).
Proof.
  unfold finish. destruct (Evaluator.isConstant value).
  - destruct (resolve_now c) as [c'| |] eqn:E; try discriminate. simpl.
    destruct (resolve_now_constant _ _ E) as [Hc Ht].
    destruct (val_is_null c') eqn:Hn; intros [= <-]; eexists; split; try reflexivity.
    + split; [now right|]. intros _. split; reflexivity.
    + split; [now left|]. intros _. split; [exact Hc|congruence].
  - intros [= <-]. eexists. split; [reflexivity|]. split; [now left|discriminate].
Qed.

(** What [convert] hands to [finish], when it gets that far. *)
Lemma convert_reaches_doConvert this value to res :
  same_instance to this = false ->
  convert this (IsEvaluator value) to = Ok res ->
  exists c, finish this value to (Some c) = Ok res
    /\ (Evaluator.type c = to
        \/ (primary to = DataType.timestamp /\ Evaluator.type c = Types_timestamp)).
Proof.
  intros Hs. rewrite convert_evaluator, Hs.
  destruct (negb (canConvert this to) || negb (has_doConvert this)); [discriminate|].
  destruct this as [o|o|o|o p|o len|o of_]; try discriminate.
  - intros Hf. eexists. split; [exact Hf|]. now left.
  - intros Hf. eexists. split; [exact Hf|]. left.
    unfold NumberType_doConvert. now destruct (_ && _).
  - destruct (TextType_doConvert value to) as [c|] eqn:E; [|discriminate].
    intros Hf. exists c. split; [exact Hf|]. now apply TextType_doConvert_type in E.
  - destruct (Evaluator.type value); try discriminate.
    destruct to; try discriminate.
    intros Hf. eexists. split; [exact Hf|]. now left.
Qed.


(** X3. Constants stay constants: a cast of a constant that succeeds returns
    a constant, already resolved; and when the target is another type and
    the value came out null, what is returned is the null constant itself. *)
Theorem convert_folds_constants this value to res :
  Evaluator.isConstant value = true ->
  convert this (IsEvaluator value) to = Ok res ->
  exists r, res = IsEvaluator r
    /\ Evaluator.isConstant r = true
    /\ (same_instance to this = false -> val_is_null r = true -> r = Value.null).
Proof.
  intros Hconst Hconv. destruct (same_instance to this) eqn:Hs.
  - rewrite convert_evaluator, Hs in Hconv. injection Hconv as <-.
    exists value. split; [reflexivity|]. split; [exact Hconst|discriminate].
  - destruct (convert_reaches_doConvert _ _ _ _ Hs Hconv) as (c & Hf & _).
    destruct (finish_result _ _ _ _ _ Hf) as (r & -> & _ & Hk).
    destruct (Hk Hconst) as [Hc Hn]. exists r. split; [reflexivity|].
    split; [exact Hc|]. intros _. exact Hn.
Qed.

End Dispatcher.

Lemma convert_follows_canConvert_witness :
  (exists r, convert (H := plain) text_unbounded
               (IsEvaluator (column text_unbounded (JStr "7"))) Types_int
             = Ok (IsEvaluator r))
  /\ convert (H := plain) Types_int (IsEvaluator (column Types_int (num "7"))) text_unbounded
     = Throw (CastError DataType.int DataType.text).
Proof.
  split.
  - apply (proj1 (convert_follows_canConvert (H := plain) text_unbounded
                    (column text_unbounded (JStr "7")) Types_int eq_refl eq_refl)).
    reflexivity.
  - apply (proj2 (convert_follows_canConvert (H := plain) Types_int
                    (column Types_int (num "7")) text_unbounded eq_refl eq_refl)).
    reflexivity.
Defined.


Lemma convert_folds_constants_witness :
  exists r,
    IsEvaluator Value.null = IsEvaluator r
    /\ Evaluator.isConstant r = true
    /\ (same_instance Types_int text_unbounded = false -> val_is_null r = true ->
        r = Value.null).
Proof.
  apply (convert_folds_constants (H := plain) text_unbounded
           (Value.constant (H := plain) JNull text_unbounded) Types_int); reflexivity.
Defined.

(** ** Constants and deferred values *)

Section Folding.

Context `{Collaborators}.
Implicit Types (this to : IType) (value : Evaluator.t) (raw : JsVal).

Lemma get_constant value raw raw' :
  Evaluator.isConstant value = true -> Evaluator.get value raw = Evaluator.get value raw'.
Proof. unfold Evaluator.isConstant, Evaluator.get. now destruct (Evaluator.val value). Qed.

(** Resolving what [finish] returns for a constant is resolving the
    converted evaluator with the null context. *)
Lemma finish_constant_get this value to c raw :
  Evaluator.isConstant value = true ->
  (r ← finish this value to (Some c); IValue_get r raw) = Evaluator.get c JNull.
Proof.
  intros Hc. unfold finish, resolve_now, Evaluator.get. rewrite Hc.
  destruct (Evaluator.val c) as [v|f] eqn:E.
  - simpl. unfold val_is_null. rewrite E.
    destruct v; simpl; unfold Evaluator.get; rewrite ?E; reflexivity.
  - destruct (f JNull) as [v| |]; try reflexivity. simpl. now destruct v.
Qed.

Lemma finish_lazy_get this value to c raw :
  Evaluator.isConstant value = false ->
  (r ← finish this value to (Some c); IValue_get r raw) = Evaluator.get c raw.
Proof. intros Hc. unfold finish. now rewrite Hc. Qed.

Lemma finish_none this value to :
  finish this value to None = Throw (CastError (primary this) (primary to)).
Proof. reflexivity. Qed.

(** X4. Folding a constant is the same as deferring it: a cast of a constant,
    then resolved with any context, gives what the cast of the same
    evaluator with its value behind a function gives when resolved with the
    null context, the error included.  Only the moment of the failure
    differs: for the constant it is the call of [convert]. *)
Theorem folding_agrees_with_resolution this value to raw :
  Evaluator.isConstant value = true ->
  (r ← convert this (IsEvaluator value) to; IValue_get r raw)
  = (r ← convert this (IsEvaluator (deferred value)) to; IValue_get r JNull).
Proof.
  intros Hc. rewrite !convert_evaluator.
  destruct (same_instance to this).
  { change (Evaluator.get value raw = Evaluator.get value JNull).
    now apply get_constant. }
  destruct (negb (canConvert this to) || negb (has_doConvert this)); [reflexivity|].
  assert (Hd : Evaluator.isConstant (deferred value) = false) by reflexivity.
  destruct this as [o|o|o|o p|o len|o of_]; try reflexivity.
  - now rewrite finish_constant_get, finish_lazy_get.
  - rewrite finish_constant_get, finish_lazy_get by assumption.
    unfold NumberType_doConvert. simpl Evaluator.type.
    destruct (_ && _); reflexivity.
  - unfold TextType_doConvert.
    destruct (primary to);
      try match goal with
          | |- context [has numbers ?k] =>
              let b := eval vm_compute in (has numbers k) in
              change (has numbers k) with b
          end;
      cbv iota; rewrite ?finish_none; try reflexivity;
      try (now rewrite finish_constant_get, finish_lazy_get).
    + destruct (TextType_len to) as [n|]; [destruct (num_lt _ n)|];
        rewrite finish_constant_get, finish_lazy_get by assumption;
        reflexivity.
  - simpl Evaluator.type. destruct (Evaluator.type value); try reflexivity.
    destruct to; try reflexivity.
    now rewrite finish_constant_get, finish_lazy_get.
Qed.

End Folding.

Lemma folding_agrees_with_resolution_witness :
  (r ← convert (H := plain) text_unbounded
         (IsEvaluator (Value.constant (H := plain) (JStr "hello") text_unbounded)) text_3;
   IValue_get r JUndefined)
  = (r ← convert (H := plain) text_unbounded
           (IsEvaluator (deferred (Value.constant (H := plain) (JStr "hello") text_unbounded)))
           text_3;
     IValue_get r JNull).
Proof.
  apply (folding_agrees_with_resolution (H := plain)). reflexivity.
Defined.

(** ** Which types convert to which *)

Section Lattice.

Implicit Types (this to : IType).

(** X5. The sources of a cast, by the kind of the target.  Apart from the
    type itself and from the null type, which converts to everything: only a
    text converts to a text or to a timestamp, only a number or a text to a
    numeric kind, only an array type to an array type, and nothing to the
    boolean or to the null kind. *)
Theorem canConvert_sources this to :
  canConvert this to = true ->
  same_instance to this = true
  \/ is_NullType this = true
  \/ match primary to with
     | DataType.text | DataType.timestamp => is_TextType this = true
     | DataType.int | DataType.long | DataType.float | DataType.decimal =>
         is_NumberType this || is_TextType this = true
     | DataType.array => is_ArrayType this && is_ArrayType to = true
     | DataType.bool | DataType.null => False
     end.
Proof.
  destruct this as [o|o|o|o p|o len|o of_]; simp canConvert.
  - now left.
  - now left.
  - right. now left.
  - unfold NumberType_canConvert. destruct (primary to); try discriminate; auto.
  - destruct (same_instance to (TextType o len)); [now left|].
    unfold TextType_doCanConvert.
    destruct (primary to); try discriminate; auto;
      vm_compute; discriminate.
  - destruct (same_instance to (ArrayType o of_)); [now left|].
    intros Ha. apply andb_prop in Ha as [Ha _].
    destruct to; try discriminate Ha. simpl. auto.
Qed.

End Lattice.

Lemma canConvert_sources_witness :
  same_instance Types_int text_unbounded = true
  \/ is_NullType text_unbounded = true
  \/ is_NumberType text_unbounded || is_TextType text_unbounded = true.
Proof. apply (canConvert_sources text_unbounded Types_int). reflexivity. Defined.

(** ** Orders *)

Section Orders.

Implicit Types (t : IType) (a b : JsVal).

(** X6. On two valid moments less than 2^53 milliseconds apart, [lt] and
    [gt] of the timestamp type are the chronological order, each the mirror
    of the other; with an invalid moment on either side the difference is
    NaN and [equals], [lt] and [gt] all answer false. *)
Theorem timestamp_order x y :
  Z.abs (x - y) < 2 ^ 53 ->
  (TypeBase.lt Types_timestamp (at_ms x) (at_ms y) = Some (x <? y)
   /\ TypeBase.gt Types_timestamp (at_ms x) (at_ms y) = Some (y <? x)
   /\ TypeBase.gt Types_timestamp (at_ms x) (at_ms y)
      = TypeBase.lt Types_timestamp (at_ms y) (at_ms x))
  /\ (forall u,
        TypeBase.equals Types_timestamp (JMoment None) (JMoment u) = Some false
        /\ TypeBase.equals Types_timestamp (JMoment u) (JMoment None) = Some false
        /\ TypeBase.lt Types_timestamp (JMoment None) (JMoment u) = Some false
        /\ TypeBase.lt Types_timestamp (JMoment u) (JMoment None) = Some false
        /\ TypeBase.gt Types_timestamp (JMoment None) (JMoment u) = Some false
        /\ TypeBase.gt Types_timestamp (JMoment u) (JMoment None) = Some false).
Proof.
  intros Hd. split.
  - assert (Hd' : Z.abs (y - x) < 2 ^ 53) by lia.
    unfold TypeBase.lt, TypeBase.gt. simpl is_null. cbn [orb].
    change (doLt Types_timestamp) with TimestampType_doLt.
    change (doGt Types_timestamp) with TimestampType_doGt.
    rewrite !TimestampType_doLt_order, TimestampType_doGt_order by assumption.
    repeat split.
  - intros [u|]; repeat split.
Qed.

(** X7. On two strings the text type answers exactly one of [lt], [equals]
    and [gt], and [equals] exactly when the strings are the same. *)
Theorem text_order_total o len (x y : string) :
  match String.compare x y with
  | Lt => TypeBase.lt (TextType o len) (JStr x) (JStr y) = Some true
          /\ TypeBase.equals (TextType o len) (JStr x) (JStr y) = Some false
          /\ TypeBase.gt (TextType o len) (JStr x) (JStr y) = Some false
  | Eq => TypeBase.lt (TextType o len) (JStr x) (JStr y) = Some false
          /\ TypeBase.equals (TextType o len) (JStr x) (JStr y) = Some true
          /\ TypeBase.gt (TextType o len) (JStr x) (JStr y) = Some false
          /\ x = y
  | Gt => TypeBase.lt (TextType o len) (JStr x) (JStr y) = Some false
          /\ TypeBase.equals (TextType o len) (JStr x) (JStr y) = Some false
          /\ TypeBase.gt (TextType o len) (JStr x) (JStr y) = Some true
  end.
Proof.
  unfold TypeBase.lt, TypeBase.equals, TypeBase.gt. simpl.
  unfold js_gt, js_lt, String.ltb. rewrite (String.compare_antisym y x).
  destruct (String.compare x y) eqn:E; simpl.
  - apply String.compare_eq_iff in E. subst y. now rewrite String.eqb_refl.
  - destruct (String.eqb_spec x y) as [-> |]; [|auto].
    pose proof (String.compare_antisym y y) as A. rewrite E in A. discriminate A.
  - destruct (String.eqb_spec x y) as [-> |]; [|auto].
    pose proof (String.compare_antisym y y) as A. rewrite E in A. discriminate A.
Qed.

Lemma some_index_ext (p q : nat -> option bool) i n :
  (forall j, p j = q j) -> some_index p i n = some_index q i n.
Proof.
  intros Hpq. revert i. induction n as [|n IH]; intros i; simpl; [reflexivity|].
  rewrite Hpq. destruct (q i) as [[]|]; simpl; auto.
Qed.

Lemma ArrayType_doGt_mirror (of_gt of_lt : JsVal -> JsVal -> option bool) la lb :
  (forall x y, of_gt x y = of_lt y x) ->
  ArrayType_doGt of_gt la lb = ArrayType_doLt of_lt lb la.
Proof.
  intros Hm. unfold ArrayType_doGt, ArrayType_doLt.
  rewrite (Nat.min_comm (length lb) (length la)).
  now rewrite (some_index_ext _ (fun i => of_lt (at_index lb i) (at_index la i))).
Qed.

(** X8. For every type with no timestamp in it, arrays included, [gt] is the
    mirror of [lt]: [a > b] is what [b < a] is. *)
Theorem gt_mirrors_lt t a b :
  timestamp_free t = true -> TypeBase.gt t a b = TypeBase.lt t b a.
Proof.
  intros Ht. revert a b.
  induction t as [o|o|o|o p|o len|o of_ IH]; intros a b; try discriminate Ht;
    unfold TypeBase.gt, TypeBase.lt; rewrite (orb_comm (is_null a));
    destruct (is_null b || is_null a); try reflexivity.
  simpl. specialize (IH Ht).
  destruct a, b; try reflexivity. simpl.
  apply ArrayType_doGt_mirror. exact IH.
Qed.

(** X9. An array with a null among its elements equals no array, itself
    included. *)
Theorem array_with_null_equals_nothing o of_ (la lb : list JsVal) :
  JNull ∈ la ->
  TypeBase.equals (ArrayType o of_) (JArr la) (JArr lb) <> Some true.
Proof.
  intros Hin. unfold TypeBase.equals. simpl is_null. cbn [orb].
  rewrite doEquals_ArrayType. intros Heq.
  apply ArrayType_doEquals_true in Heq as [_ Hall].
  apply list_elem_of_lookup in Hin as [i Hi].
  specialize (Hall i (lookup_lt_Some _ _ _ Hi)).
  unfold at_index in Hall at 1. rewrite Hi in Hall. simpl in Hall.
  rewrite equals_null_l in Hall. discriminate.
Qed.

End Orders.

Lemma timestamp_order_witness :
  TypeBase.lt Types_timestamp (at_ms 1000) (at_ms 0) = Some (1000 <? 0)
  /\ TypeBase.gt Types_timestamp (at_ms 1000) (at_ms 0) = Some (0 <? 1000)
  /\ TypeBase.gt Types_timestamp (at_ms 1000) (at_ms 0)
     = TypeBase.lt Types_timestamp (at_ms 0) (at_ms 1000).
Proof. apply (proj1 (timestamp_order 1000 0 ltac:(reflexivity))). Defined.

Lemma gt_mirrors_lt_witness :
  TypeBase.gt array_of_int (ints [1; 3]) (ints [2; 2])
  = TypeBase.lt array_of_int (ints [2; 2]) (ints [1; 3]).
Proof. apply gt_mirrors_lt. reflexivity. Defined.

Lemma array_with_null_equals_nothing_witness :
  TypeBase.equals array_of_int (JArr [ints_elt 1; JNull]) (JArr [ints_elt 1; JNull])
  <> Some true.
Proof.
  apply (array_with_null_equals_nothing 11%positive Types_int).
  apply list_elem_of_In. simpl. tauto.
Defined.

(** ** Whole numbers and arrays through a cast *)

Section Casts.

Implicit Types (value : Evaluator.t) (to : IType) (raw : JsVal).

Lemma round_scaled_multiple z k : round_scaled (z * 2 ^ Zpos k) k = z.
Proof.
  unfold round_scaled. set (d := 2 ^ Zpos k).
  assert (0 < d) by (apply Z.pow_pos_nonneg; lia).
  replace (2 * (z * d) + d) with ((2 * z + 1) * d) by ring.
  rewrite Z.div_mul_cancel_r by lia.
  symmetry. apply (Z.div_unique (2 * z + 1) 2 z 1); lia.
Qed.

(** [Math.round] leaves an integer as it is. *)
Lemma Math_round_ofZ z : Z.abs z < 2 ^ 53 -> Math_round (ofZ z) = ofZ z.
Proof.
  intros Hz. destruct z as [|p|p]; [reflexivity| |].
  - destruct (binary_round_integer false p) as (m & e & E & He & Hm); [lia|].
    unfold ofZ, binary_normalize. rewrite E.
    destruct e as [|e|k]; try lia; [reflexivity|].
    unfold Math_round. simpl cond_Zopp. rewrite Hm.
    change (- Z.neg k) with (Zpos k). rewrite round_scaled_multiple.
    unfold integral. simpl Z.eqb. cbv iota.
    unfold ofZ, binary_normalize. exact E.
  - destruct (binary_round_integer true p) as (m & e & E & He & Hm); [lia|].
    unfold ofZ, binary_normalize. rewrite E.
    destruct e as [|e|k]; try lia; [reflexivity|].
    unfold Math_round. simpl cond_Zopp. rewrite Hm.
    change (- Z.neg k) with (Zpos k).
    replace (- (Zpos p * 2 ^ Zpos k)) with (Zneg p * 2 ^ Zpos k) by lia.
    rewrite round_scaled_multiple.
    unfold integral. simpl Z.eqb. cbv iota.
    unfold ofZ, binary_normalize. exact E.
Qed.

(** Rounding twice is rounding once. *)
Lemma Math_round_idempotent x :
  binary64 x = true -> Math_round (Math_round x) = Math_round x.
Proof.
  intros Hx. destruct x as [s|s| |s m [|e|k]]; try reflexivity.
  apply binary64_fraction in Hx as [Hm _].
  change (Math_round (S754_finite s m (Zneg k)))
    with (integral s (round_scaled (cond_Zopp s (Zpos m)) k)).
  pose proof (round_scaled_small s m k Hm) as Hr.
  unfold integral. destruct (Z.eqb_spec (round_scaled (cond_Zopp s (Zpos m)) k) 0);
    [reflexivity|].
  now apply Math_round_ofZ.
Qed.

Lemma NumberType_doConvert_type value to :
  Evaluator.type (NumberType_doConvert value to) = to.
Proof. unfold NumberType_doConvert. now destruct (_ && _). Qed.

(** X10. Once a number has been cast to an integer kind, casting it on to a
    non-integer kind and back to an integer kind changes nothing: the second
    rounding finds a whole number and leaves it as it is. *)
Theorem rounding_cast_idempotent value to_int to_float raw x :
  has integers (primary (Evaluator.type value)) = false ->
  has integers (primary to_int) = true ->
  has integers (primary to_float) = false ->
  Evaluator.get value raw = Ok (JNum x) ->
  binary64 x = true ->
  Evaluator.get
    (NumberType_doConvert (NumberType_doConvert (NumberType_doConvert value to_int) to_float)
       to_int) raw
  = Evaluator.get (NumberType_doConvert value to_int) raw
  /\ Evaluator.get (NumberType_doConvert value to_int) raw = Ok (JNum (Math_round x)).
Proof.
  intros Hs Hi Hf Hget Hx.
  assert (Hfirst : Evaluator.get (NumberType_doConvert value to_int) raw
                   = Ok (JNum (Math_round x))).
  { rewrite (NumberType_doConvert_rounding _ _ Hs Hi).
    unfold Evaluator.get at 1. simpl. now rewrite Hget. }
  split; [|exact Hfirst].
  rewrite (NumberType_doConvert_rounding _ to_int);
    [|now rewrite NumberType_doConvert_type|exact Hi].
  unfold Evaluator.get at 1. simpl Evaluator.val. cbv beta iota.
  rewrite (NumberType_doConvert_passthrough _ to_float) by (right; exact Hf).
  unfold Evaluator.get at 1. simpl Evaluator.val.
  fold (Evaluator.get (NumberType_doConvert value to_int) raw).
  rewrite Hfirst. simpl. now rewrite Math_round_idempotent.
Qed.

Lemma mapM_result_Ok {A B} (f : A -> result B) l l' :
  mapM f l = Ok l' <-> Forall2 (fun x y => f x = Ok y) l l'.
Proof.
  revert l'. induction l as [|x l IH]; intros l'; simpl.
  - split.
    + intros [= <-]. constructor.
    + intros Hf. inversion Hf. reflexivity.
  - destruct (f x) as [y| |] eqn:E; simpl.
    + destruct (mapM f l) as [k| |] eqn:Ek; simpl.
      * split.
        -- intros [= <-]. constructor; [exact E|]. now apply IH.
        -- intros Hf. inversion Hf as [|? y' ? k' Hy Hk]; subst.
           apply IH in Hk. rewrite E in Hy.
           injection Hy as <-. injection Hk as <-. reflexivity.
      * split; [discriminate|]. intros Hf. inversion Hf as [|? y' ? k' Hy Hk]; subst.
        apply IH in Hk. discriminate.
      * split; [discriminate|]. intros Hf. inversion Hf as [|? y' ? k' Hy Hk]; subst.
        apply IH in Hk. discriminate.
    + split; [discriminate|]. intros Hf. inversion Hf; congruence.
    + split; [discriminate|]. intros Hf. inversion Hf; congruence.
Qed.

(** X11. The evaluator [ArrayType.doConvert] builds resolves to an array
    exactly when every element of the source array converts, and then to the
    converted elements in the same order, as many as there were; so an empty
    array gives an empty array.  When the source resolves to something that
    is not an array, null included, resolving throws a [TypeError]. *)
Theorem array_cast_elementwise convert_element value to raw :
  (forall l l',
     Evaluator.get value raw = Ok (JArr l) ->
     (Evaluator.get (ArrayType_doConvert convert_element value to) raw = Ok (JArr l')
      <-> Forall2 (fun x y => convert_element x raw = Ok y) l l')
     /\ (Evaluator.get (ArrayType_doConvert convert_element value to) raw = Ok (JArr l')
         -> length l' = length l))
  /\ (forall v,
        Evaluator.get value raw = Ok v ->
        (forall l, v <> JArr l) ->
        Evaluator.get (ArrayType_doConvert convert_element value to) raw = Throw TypeError).
Proof.
  split.
  - intros l l' Hget.
    assert (Hiff : Evaluator.get (ArrayType_doConvert convert_element value to) raw
                   = Ok (JArr l')
                   <-> Forall2 (fun x y => convert_element x raw = Ok y) l l').
    { unfold Evaluator.get at 1. simpl. rewrite Hget. simpl.
      rewrite <- mapM_result_Ok.
      destruct (mapM _ l) as [k| |]; simpl; split; congruence. }
    split; [exact Hiff|].
    intros Hok. apply Hiff in Hok. symmetry. eapply Forall2_length. exact Hok.
  - intros v Hget Hv. unfold Evaluator.get at 1. simpl. rewrite Hget. simpl.
    destruct v; try reflexivity. now destruct (Hv l).
Qed.

End Casts.

Lemma rounding_cast_idempotent_witness :
  Evaluator.get
    (NumberType_doConvert
       (NumberType_doConvert (NumberType_doConvert (column Types_float (num "2.5")) Types_int)
          Types_float) Types_int) JUndefined
  = Evaluator.get (NumberType_doConvert (column Types_float (num "2.5")) Types_int) JUndefined
  /\ Evaluator.get (NumberType_doConvert (column Types_float (num "2.5")) Types_int) JUndefined
     = Ok (JNum (Math_round (parseFloat "2.5"))).
Proof.
  apply (rounding_cast_idempotent (column Types_float (num "2.5")) Types_int Types_float
           JUndefined (parseFloat "2.5")); reflexivity.
Defined.

Lemma array_cast_elementwise_witness :
  Evaluator.get
    (ArrayType_doConvert
       (fun x raw =>
          c ← Evaluator_convert (H := plain) (Value.constant (H := plain) x Types_int)
                Types_float;
          IValue_get c raw)
       (column array_of_int (ints [1; 2])) array_of_float) JUndefined
  = Ok (ints [1; 2]).
Proof.
  apply (proj1 (array_cast_elementwise _ (column array_of_int (ints [1; 2])) array_of_float
                  JUndefined)
           (map ints_elt [1; 2]) (map ints_elt [1; 2]) eq_refl).
  repeat constructor.
Defined.

(** ** What the registry keeps *)

Section RegistryInvariants.

Implicit Types (r : Registry) (len : MaxLength) (t : IType).

Lemma initial_sound : registry_sound initial.
Proof.
  split; simpl.
  - intros k t Hk. rewrite lookup_empty in Hk. discriminate.
  - intros k t Hk. rewrite lookup_empty in Hk. discriminate.
  - intros t [[k Hk]|[k Hk]]; simpl in Hk; rewrite lookup_empty in Hk; discriminate.
  - reflexivity.
Qed.

Lemma makeText_sound r len :
  well_formed r -> registry_sound r -> registry_sound (snd (makeText len r)).
Proof.
  intros Hwf [Htexts Harrays Habove Hcount]. unfold makeText.
  destruct (texts r !! mapKey (nullish (defaultNull len))) eqn:E; simpl; [now split|].
  split; simpl.
  - intros k t Hk. apply lookup_insert_Some in Hk as [[<- <-]|[_ Hk]]; [|eauto].
    do 2 eexists. split; reflexivity.
  - exact Harrays.
  - intros t [[k Hk]|[k Hk]]; simpl in Hk.
    + apply lookup_insert_Some in Hk as [[_ <-]|[_ Hk]]; simpl.
      * exact (wf_start _ Hwf).
      * apply Habove. left. eauto.
    + apply Habove. right. eauto.
  - rewrite map_size_insert_None by exact E. lia.
Qed.

Lemma makeArray_sound r of_ :
  well_formed r -> registry_sound r -> registry_sound (snd (makeArray of_ r)).
Proof.
  intros Hwf [Htexts Harrays Habove Hcount]. unfold makeArray.
  destruct (arrays r !! oid_of of_) eqn:E; simpl; [now split|].
  split; simpl.
  - exact Htexts.
  - intros k t Hk. apply lookup_insert_Some in Hk as [[<- <-]|[_ Hk]]; [|eauto].
    do 2 eexists. split; reflexivity.
  - intros t [[k Hk]|[k Hk]]; simpl in Hk.
    + apply Habove. left. eauto.
    + apply lookup_insert_Some in Hk as [[_ <-]|[_ Hk]]; simpl.
      * exact (wf_start _ Hwf).
      * apply Habove. right. eauto.
  - rewrite map_size_insert_None by exact E. lia.
Qed.

Lemma serve_all_sound qs r :
  well_formed r -> registry_sound r -> registry_sound (serve_all qs r).
Proof.
  revert r. induction qs as [|[len|of_] qs IH]; intros r Hwf Hr; simpl; [exact Hr| |].
  - apply IH; [now apply makeText_well_formed|now apply makeText_sound].
  - apply IH; [now apply makeArray_well_formed|now apply makeArray_sound].
Qed.

Lemma reachable_sound qs :
  well_formed (serve_all qs initial) /\ registry_sound (serve_all qs initial).
Proof.
  split.
  - apply serve_all_well_formed, initial_well_formed.
  - apply serve_all_sound; [apply initial_well_formed|apply initial_sound].
Qed.

(** X12. Whatever calls of the factories came before, [makeText] returns a
    text type whose length is the one asked for (up to the sign of zero, which
    the memo table does not tell apart), and [makeArray] an array type whose
    element is the instance asked for. *)
Theorem factories_return_the_type_asked (qs : list Request) len of_ :
  (exists o l,
     fst (makeText len (serve_all qs initial)) = TextType o l
     /\ mapKey l = mapKey (nullish (defaultNull len)))
  /\ (exists o e,
        fst (makeArray of_ (serve_all qs initial)) = ArrayType o e
        /\ same_instance e of_ = true).
Proof.
  destruct (reachable_sound qs) as [Hwf Hs]. split.
  - pose proof (makeText_recorded (serve_all qs initial) len) as Hrec.
    destruct (makeText_sound _ len Hwf Hs) as [Htexts _ _ _].
    destruct (Htexts _ _ Hrec) as (o & l & Ht & Hl). eauto.
  - pose proof (makeArray_recorded (serve_all qs initial) of_) as Hrec.
    destruct (makeArray_sound _ of_ Hwf Hs) as [_ Harrays _ _].
    destruct (Harrays _ _ Hrec) as (o & e & Ht & He).
    exists o, e. split; [exact Ht|]. unfold same_instance. now apply Pos.eqb_eq.
Qed.

(** X13. In a registry the factories have built, two lengths that are not
    the same key have two instances, two elements of different identity have
    two array types, a text type is never an array type, and no instance a
    factory returns is one of the instances of [Types]. *)
Theorem factories_keep_instances_apart (qs : list Request) :
  (forall len len',
     ~ same_length len len' ->
     same_instance (fst (makeText len (serve_all qs initial)))
       (fst (makeText len' (snd (makeText len (serve_all qs initial))))) = false)
  /\ (forall of_ of_',
        same_instance of_ of_' = false ->
        same_instance (fst (makeArray of_ (serve_all qs initial)))
          (fst (makeArray of_' (snd (makeArray of_ (serve_all qs initial))))) = false)
  /\ (forall len of_,
        same_instance (fst (makeText len (serve_all qs initial)))
          (fst (makeArray of_ (snd (makeText len (serve_all qs initial))))) = false)
  /\ (forall len of_ t,
        t ∈ [Types_bool; Types_timestamp; Types_null; Types_float; Types_int; Types_long] ->
        same_instance (fst (makeText len (serve_all qs initial))) t = false
        /\ same_instance (fst (makeArray of_ (serve_all qs initial))) t = false).
Proof.
  destruct (reachable_sound qs) as [Hwf Hs].
  set (r := serve_all qs initial) in *.
  split; [|split; [|split]].
  - intros len len' Hne.
    assert (Hwf' : well_formed (snd (makeText len' (snd (makeText len r)))))
      by now apply makeText_well_formed, makeText_well_formed.
    pose proof (makeText_recorded (snd (makeText len r)) len') as Hlen'.
    pose proof (serve_keeps_texts _ (TextRequest len') _ _ (makeText_recorded r len)) as Hlen.
    apply Pos.eqb_neq. intros Hoid. apply Hne.
    exact (wf_texts _ Hwf' _ _ _ _ Hlen Hlen' Hoid).
  - intros of_ of_' Hne.
    assert (Hwf' : well_formed (snd (makeArray of_' (snd (makeArray of_ r)))))
      by now apply makeArray_well_formed, makeArray_well_formed.
    pose proof (makeArray_recorded (snd (makeArray of_ r)) of_') as Hof'.
    pose proof (serve_keeps_arrays _ (ArrayRequest of_') _ _ (makeArray_recorded r of_)) as Hof.
    apply Pos.eqb_neq. intros Hoid. apply Pos.eqb_neq in Hne. apply Hne.
    exact (wf_arrays _ Hwf' _ _ _ _ Hof Hof' Hoid).
  - intros len of_.
    assert (Hwf' : well_formed (snd (makeArray of_ (snd (makeText len r)))))
      by now apply makeArray_well_formed, makeText_well_formed.
    pose proof (makeArray_recorded (snd (makeText len r)) of_) as Hof.
    pose proof (serve_keeps_texts _ (ArrayRequest of_) _ _ (makeText_recorded r len)) as Hlen.
    apply Pos.eqb_neq. exact (wf_apart _ Hwf' _ _ _ _ Hlen Hof).
  - intros len of_ t Ht.
    assert (Hlow : (oid_of t < 7)%positive).
    { rewrite !elem_of_cons, elem_of_nil in Ht.
      destruct Ht as [->|[->|[->|[->|[->|[->|[]]]]]]]; reflexivity. }
    split; apply Pos.eqb_neq.
    + pose proof (sound_above _ (makeText_sound _ len Hwf Hs) (fst (makeText len r))) as Hge.
      assert (7 <= oid_of (fst (makeText len r)))%positive
        by (apply Hge; left; eexists; apply makeText_recorded).
      lia.
    + pose proof (sound_above _ (makeArray_sound _ of_ Hwf Hs) (fst (makeArray of_ r))) as Hge.
      assert (7 <= oid_of (fst (makeArray of_ r)))%positive
        by (apply Hge; right; eexists; apply makeArray_recorded).
      lia.
Qed.

(** X14. The factories allocate one identity for each entry of the memo
    tables and none besides: after any calls, the allocator stands at the
    six instances of [Types] plus the number of entries. *)
Theorem one_instance_per_entry (qs : list Request) :
  Pos.to_nat (next_oid (serve_all qs initial))
  = (7 + size (texts (serve_all qs initial)) + size (arrays (serve_all qs initial)))%nat.
Proof. exact (sound_count _ (proj2 (reachable_sound qs))). Qed.

End RegistryInvariants.

Lemma factories_keep_instances_apart_witness :
  same_instance (fst (makeText (LenNumber (ofZ 5)) (serve_all [] initial)))
    (fst (makeText (LenNumber (ofZ 10))
            (snd (makeText (LenNumber (ofZ 5)) (serve_all [] initial))))) = false
  /\ same_instance (fst (makeArray Types_int (serve_all [] initial)))
       (fst (makeArray Types_float (snd (makeArray Types_int (serve_all [] initial))))) = false
  /\ same_instance (fst (makeText LenNull (serve_all [] initial))) Types_int = false.
Proof.
  pose proof (factories_keep_instances_apart []) as (Ht & Ha & _ & Hs).
  split; [|split].
  - apply Ht. unfold same_length. simpl. discriminate.
  - apply Ha. reflexivity.
  - apply (Hs LenNull Types_int Types_int). rewrite !elem_of_cons. tauto.
Defined.

(** ** What a cast does to the value *)

Section Values.

Context `{Collaborators}.
Implicit Types (this to : IType) (value : Evaluator.t) (raw : JsVal).

(** Resolving what [finish] returns, constant or not. *)
Lemma finish_get this value to c raw :
  (forall raw', Evaluator.get c raw' = Evaluator.get value raw') ->
  (r ← finish this value to (Some c); IValue_get r raw) = Evaluator.get value raw.
Proof.
  intros Hsame. destruct (Evaluator.isConstant value) eqn:Hc.
  - rewrite finish_constant_get by assumption. rewrite Hsame. now apply get_constant.
  - rewrite finish_lazy_get by assumption. apply Hsame.
Qed.

(** X15. Two casts never touch the value: a text to a text without a bound,
    and a number to a numeric kind unless a non-integer kind goes to an
    integer kind.  Resolving the result gives what resolving the source
    gives, errors included, for a constant as for a deferred value. *)
Theorem casts_that_keep_the_value this value to raw :
  (is_TextType this = true /\ exists o, to = TextType o None)
  \/ (is_NumberType this = true /\ NumberType_canConvert to = true
      /\ (has integers (primary (Evaluator.type value)) = true
          \/ has integers (primary to) = false)) ->
  (r ← convert this (IsEvaluator value) to; IValue_get r raw) = Evaluator.get value raw.
Proof.
  intros Hcase. rewrite convert_evaluator.
  destruct (same_instance to this) eqn:Hs; [reflexivity|].
  destruct Hcase as [[Ht [o ->]]|(Hn & Hcan & Hkeep)].
  - destruct this as [| | | |o' len|]; try discriminate Ht.
    simp canConvert. rewrite Hs. cbn [TextType_doCanConvert primary negb orb has_doConvert].
    rewrite TextType_doConvert_unbounded.
    apply finish_get. reflexivity.
  - destruct this as [| | |o' p| |]; try discriminate Hn.
    simp canConvert. rewrite Hcan. cbn [negb orb has_doConvert].
    rewrite (NumberType_doConvert_passthrough _ _ Hkeep).
    apply finish_get. reflexivity.
Qed.

(** X16. The null type converts to every other type, and the result
    resolves to null without the source being resolved at all. *)
Theorem null_casts_to_null o value to raw :
  same_instance to (NullType o) = false ->
  canConvert (NullType o) to = true
  /\ (r ← convert (NullType o) (IsEvaluator value) to; IValue_get r raw) = Ok JNull.
Proof.
  intros Hs. assert (Hcan : canConvert (NullType o) to = true)
    by (simp canConvert; now rewrite Hs).
  split; [exact Hcan|].
  rewrite convert_evaluator, Hs, Hcan. cbn [negb orb has_doConvert].
  unfold finish. now destruct (Evaluator.isConstant value).
Qed.

(** X17. A boolean or a timestamp is cast to no other type, and a value that
    is not an evaluator to none either: [convert] throws the [CastError] of
    the two kinds. *)
Theorem casts_refused this (a : IValue) to :
  same_instance to this = false ->
  has_doConvert this = false \/ (exists t, a = NotEvaluator t) ->
  convert this a to = Throw (CastError (primary this) (primary to)).
Proof.
  intros Hs [Hh|[t ->]].
  - destruct a as [value|t].
    + rewrite convert_evaluator, Hs, Hh. now rewrite orb_true_r.
    + now rewrite convert_not_evaluator, Hs.
  - now rewrite convert_not_evaluator, Hs.
Qed.

(** X18. What a cast of a text to a numeric kind can resolve to: null, or a
    finite number, which is whole when the target is an integer kind.  NaN
    and the infinities never come out of it. *)
Theorem numeric_cast_yields_finite value to raw c v :
  has numbers (primary to) = true ->
  TextType_doConvert value to = Some c ->
  Evaluator.get c raw = Ok v ->
  v = JNull
  \/ exists x, v = JNum x /\ isFinite x = true
               /\ (has integers (primary to) = true -> whole x = true).
Proof.
  intros Hn Hc. rewrite (TextType_doConvert_number _ _ Hn) in Hc. injection Hc as <-.
  change (Evaluator.get _ raw) with (parseNumber value to (has integers (primary to)) raw).
  unfold parseNumber, whole.
  destruct (Evaluator.get value raw) as [str| |]; try discriminate. simpl.
  destruct str as [| | | |str| |]; try discriminate; try (intros [= <-]; now left).
  destruct (isFinite (parseFloat str)) eqn:Hfin; simpl; [|discriminate].
  destruct (has integers (primary to)); simpl.
  - destruct (num_eq (Math_floor (parseFloat str)) (parseFloat str)) eqn:Hw; simpl;
      [|discriminate].
    intros [= <-]. right. eauto.
  - intros [= <-]. right. eexists. split; [reflexivity|]. split; [exact Hfin|discriminate].
Qed.

(** X19. A string that comes out of a cast to a text with a bound is the
    string that went in, and it is not longer than the bound. *)
Theorem bounded_text_is_never_longer value o len raw c str :
  TextType_doConvert value (TextType o (Some len)) = Some c ->
  Evaluator.get c raw = Ok (JStr str) ->
  Evaluator.get value raw = Ok (JStr str)
  /\ num_gt (ofNat (String.length str)) len = false.
Proof.
  rewrite TextType_doConvert_bounded. intros [= <-] Hget.
  change (checkLength value len raw = Ok (JStr str)) in Hget. revert Hget.
  unfold checkLength.
  destruct (Evaluator.get value raw) as [v| |]; try discriminate. simpl.
  destruct v as [| | | |s| |l]; simpl; try discriminate.
  - destruct (num_gt (ofNat (String.length s)) len) eqn:E; simpl; [discriminate|].
    intros [= <-]. split; [reflexivity|exact E].
  - destruct (num_gt (ofNat (length l)) len); discriminate.
Qed.

End Values.

Lemma casts_that_keep_the_value_witness :
  (r ← convert (H := plain) Types_int (IsEvaluator (column Types_int (num "7"))) Types_float;
   IValue_get r JUndefined)
  = Evaluator.get (column Types_int (num "7")) JUndefined.
Proof.
  apply (casts_that_keep_the_value (H := plain)). right.
  split; [reflexivity|]. split; [reflexivity|]. left. reflexivity.
Defined.

Lemma null_casts_to_null_witness :
  canConvert (NullType 3%positive) text_3 = true
  /\ (r ← convert (H := plain) (NullType 3%positive) (IsEvaluator Value.null) text_3;
      IValue_get r JUndefined) = Ok JNull.
Proof. apply (null_casts_to_null (H := plain)). reflexivity. Defined.

Lemma casts_refused_witness :
  convert (H := plain) Types_timestamp (IsEvaluator (column Types_timestamp (at_ms 0)))
    text_unbounded
  = Throw (CastError DataType.timestamp DataType.text).
Proof.
  apply (casts_refused (H := plain)); [reflexivity|]. left. reflexivity.
Defined.

Lemma numeric_cast_yields_finite_witness :
  ints_elt 42 = JNull
  \/ exists x, ints_elt 42 = JNum x /\ isFinite x = true
               /\ (has integers (primary Types_int) = true -> whole x = true).
Proof.
  apply (numeric_cast_yields_finite (H := plain) (column text_unbounded (JStr "42"))
           Types_int JUndefined
           (Evaluator.setValue (Evaluator.setType (column text_unbounded (JStr "42")) Types_int)
              (parseNumber (column text_unbounded (JStr "42")) Types_int true)));
    reflexivity.
Defined.

Lemma bounded_text_is_never_longer_witness :
  Evaluator.get (column text_unbounded (JStr "hello")) JUndefined = Ok (JStr "hello")
  /\ num_gt (ofNat (String.length "hello")) (ofZ 10) = false.
Proof.
  apply (bounded_text_is_never_longer (H := plain) (column text_unbounded (JStr "hello"))
           12%positive (ofZ 10) JUndefined
           (Evaluator.setValue
              (Evaluator.setType (column text_unbounded (JStr "hello"))
                 (TextType 12%positive (Some (ofZ 10))))
              (checkLength (column text_unbounded (JStr "hello")) (ofZ 10))));
    reflexivity.
Defined.
